(** * The pokemon_lab portfolio ETL (Labs/Lab_04/pokemon_lab)

    A shallow embedding of [update_portfolio.py] in its two copies:

    - [Robust]: Labs/Lab_04/pokemon_lab/update_portfolio.py, the copy that
      [pipeline.py] imports;
    - [Legacy]: Labs/Lab_04/pokemon_lab/pokemon_lab/update_portfolio.py.

    The pandas operations the two scripts call are gathered in the module
    [pd].  A frame is its column labels and its rows; a row is a dictionary
    from label to cell.  Cells carry their own tag (object dtype): numeric
    dtype promotion and the text rendering of a CSV file are not modelled.
    Reading a file is presented by its outcome (unreadable, blank, malformed,
    parsed), and the file system holds the tables written by [to_csv]. *)

From Stdlib Require Import List String Ascii ZArith QArith Bool.
From Stdlib Require Import Permutation Sorted Lia DecimalString.
Import ListNotations.
Local Open Scope string_scope.
Local Open Scope list_scope.

(** ** Values *)

(** A parsed JSON document, as [json.loads] returns it. *)
Local Unset Elimination Schemes.
Inductive json : Type :=
| JNull
| JBool (b : bool)
| JInt (z : Z)
| JFloat (q : Q)
| JStr (s : string)
| JArr (items : list json)
| JObj (fields : list (string * json)).
Local Set Elimination Schemes.

(** A cell of a frame.  [NA] stands for NaN, None and pd.NA alike: [fillna],
    [combine_first] and the merge treat them the same way.  A finite float is
    the rational it denotes; only its order and equality are used. *)
Inductive cell : Type :=
| NA
| CBool (b : bool)
| CInt (z : Z)
| CFloat (q : Q)
| CStr (s : string)
| CList (items : list json).

(** Python exceptions that leave the functions below. *)
Inductive exn : Type :=
| KeyError (label : string)
| TypeError
| ValueError
| OSError
| AttributeError.

Inductive result (A : Type) : Type :=
| Ok (a : A)
| Raise (e : exn).
Arguments Ok {A} a.
Arguments Raise {A} e.

Definition bind {A B : Type} (m : result A) (k : A -> result B) : result B :=
  match m with
  | Ok a => k a
  | Raise e => Raise e
  end.

Notation "x <- m ;; k" := (bind m (fun x => k))
  (at level 61, m at next level, right associativity).

Definition Row : Type := list (string * cell).
Definition Series : Type := list cell.

Record DataFrame : Type := mkDataFrame {
  columns : list string;
  rows : list Row
}.

(** The table a CSV file holds: its header line and its data lines. *)
Record Artifact : Type := mkArtifact {
  header : list string;
  data : list (list cell)
}.

(** The order in which [sort_values(ascending=False)] leaves the rows.  Both
    scripts call it with the default [kind], for which pandas promises a
    descending permutation and nothing about the order of equal keys; a kind
    is any such sort.  Rows travel with their numeric key. *)
Definition key_ge (a b : Q * Row) : Prop := (fst b <= fst a)%Q.

Record SortKind : Type := mkSortKind {
  sort_desc : list (Q * Row) -> list (Q * Row);
  sort_desc_perm : forall l, Permutation (sort_desc l) l;
  sort_desc_sorted : forall l, StronglySorted key_ge (sort_desc l)
}.

(** ** Strings *)

Fixpoint chars (s : string) : list ascii :=
  match s with
  | EmptyString => []
  | String a s' => a :: chars s'
  end.

Fixpoint starts_with (p l : list ascii) : bool :=
  match p, l with
  | [], _ => true
  | a :: p', b :: l' => Ascii.eqb a b && starts_with p' l'
  | _ :: _, [] => false
  end.

(** [s.endswith(suffix)] *)
Definition endswith (s suffix : string) : bool :=
  starts_with (rev (chars suffix)) (rev (chars s)).

Definition mem (c : string) (cols : list string) : bool :=
  existsb (String.eqb c) cols.

(** ** Cells *)

Definition is_na (c : cell) : bool :=
  match c with
  | NA => true
  | _ => false
  end.

(** The number a cell compares as; Python's bool is an int. *)
Definition numeric_of (c : cell) : option Q :=
  match c with
  | CBool b => Some (if b then 1 else 0)%Q
  | CInt z => Some (inject_Z z)
  | CFloat q => Some q
  | _ => None
  end.

(** Equality of two keys, as hashing sees it in [drop_duplicates] and
    [merge]: numbers by value, strings by content, missing equals missing. *)
Definition cell_eqb (a b : cell) : bool :=
  match numeric_of a, numeric_of b with
  | Some p, Some q => Qeq_bool p q
  | None, None =>
      match a, b with
      | NA, NA => true
      | CStr s, CStr t => String.eqb s t
      | _, _ => false
      end
  | _, _ => false
  end.

Definition hashable (c : cell) : bool :=
  match c with
  | CList _ => false
  | _ => true
  end.

Fixpoint get (c : string) (r : Row) : cell :=
  match r with
  | [] => NA
  | (k, v) :: r' => if String.eqb k c then v else get c r'
  end.

(** Pairs each element with the element of the same label on the other side,
    [d] where the other side has none. *)
Fixpoint align {A B : Type} (d : B) (xs : list A) (ys : list B) : list (A * B) :=
  match xs with
  | [] => []
  | x :: xs' => (x, hd d ys) :: align d xs' (tl ys)
  end.

(** ** pandas *)

Module pd.

(** [pd.Series(v, index=df.index)] *)
Definition Series_const (v : cell) (df : DataFrame) : Series :=
  map (fun _ => v) (rows df).

(** [df[c]] *)
Definition getitem (df : DataFrame) (c : string) : result Series :=
  if mem c (columns df) then Ok (map (get c) (rows df))
  else Raise (KeyError c).

(** [df.get(c, default)] *)
Definition get_or (df : DataFrame) (c : string) (default : Series) : Series :=
  if mem c (columns df) then map (get c) (rows df) else default.

(** [s.fillna(v)] for a scalar [v] *)
Definition fillna (s : Series) (v : cell) : Series :=
  map (fun a => if is_na a then v else a) s.

(** [s.fillna(t)] for a series [t] *)
Definition fillna_series (s t : Series) : Series :=
  map (fun ab => if is_na (fst ab) then snd ab else fst ab) (align NA s t).

(** [s.combine_first(t)] on a shared index *)
Definition combine_first (s t : Series) : Series := fillna_series s t.

(** [df[c] = s] *)
Definition setitem (df : DataFrame) (c : string) (s : Series) : DataFrame :=
  {| columns := if mem c (columns df) then columns df else columns df ++ [c];
     rows := map (fun rv => (c, snd rv) :: fst rv) (align NA (rows df) s) |}.

(** [df[cols]] for a list of labels *)
Definition select (df : DataFrame) (cols : list string) : result DataFrame :=
  match find (fun c => negb (mem c (columns df))) cols with
  | Some c => Raise (KeyError c)
  | None =>
      Ok {| columns := cols;
            rows := map (fun r => map (fun c => (c, get c r)) cols) (rows df) |}
  end.

(** [df.rename(columns=f)] *)
Definition rename (f : string -> string) (df : DataFrame) : DataFrame :=
  {| columns := map f (columns df);
     rows := map (map (fun kv => (f (fst kv), snd kv))) (rows df) |}.

(** [pd.DataFrame(columns=cols)] *)
Definition DataFrame_columns (cols : list string) : DataFrame :=
  {| columns := cols; rows := [] |}.

(** [df.empty] *)
Definition empty (df : DataFrame) : bool :=
  match columns df, rows df with
  | [], _ => true
  | _, [] => true
  | _, _ => false
  end.

Definition union_columns (acc cols : list string) : list string :=
  fold_left (fun a c => if mem c a then a else a ++ [c]) cols acc.

Definition widen (cols : list string) (df : DataFrame) : list Row :=
  map (fun r => map (fun c => (c, if mem c (columns df) then get c r else NA)) cols)
      (rows df).

(** [pd.concat(dfs, ignore_index=True)] on a non-empty list *)
Definition concat (dfs : list DataFrame) : DataFrame :=
  let cols := fold_left (fun a df => union_columns a (columns df)) dfs [] in
  {| columns := cols; rows := flat_map (widen cols) dfs |}.

(** One record of [json_normalize(records, sep=".")]: nested objects become
    dotted labels, every other value is a leaf. *)
Definition leaf (v : json) : cell :=
  match v with
  | JNull => NA
  | JBool b => CBool b
  | JInt z => CInt z
  | JFloat q => CFloat q
  | JStr s => CStr s
  | JArr l => CList l
  | JObj _ => NA
  end.

Fixpoint flatten (label : string) (v : json) {struct v} : Row :=
  match v with
  | JObj fields =>
      (fix go (kvs : list (string * json)) : Row :=
         match kvs with
         | [] => []
         | (k, x) :: rest => flatten (label ++ "." ++ k) x ++ go rest
         end) fields
  | _ => [(label, leaf v)]
  end.

Definition flatten_record (v : json) : result Row :=
  match v with
  | JObj fields => Ok (flat_map (fun kv => flatten (fst kv) (snd kv)) fields)
  | _ => Raise AttributeError
  end.

Fixpoint flatten_records (records : list json) : result (list Row) :=
  match records with
  | [] => Ok []
  | v :: rest =>
      r <- flatten_record v ;;
      rs <- flatten_records rest ;;
      Ok (r :: rs)
  end.

(** [pd.json_normalize(records, sep=".")] *)
Definition json_normalize (records : list json) : result DataFrame :=
  rs <- flatten_records records ;;
  let cols := fold_left (fun a r => union_columns a (map fst r)) rs [] in
  Ok {| columns := cols;
        rows := map (fun r => map (fun c => (c, get c r)) cols) rs |}.

(** Rows with the number their [by] cell compares as; a cell that is not a
    number cannot be ordered against the others. *)
Fixpoint keyed (by_ : string) (rs : list Row) : result (list (Q * Row)) :=
  match rs with
  | [] => Ok []
  | r :: rest =>
      match numeric_of (get by_ r) with
      | Some q => krs <- keyed by_ rest ;; Ok ((q, r) :: krs)
      | None => Raise TypeError
      end
  end.

(** [df.sort_values(by, ascending=False)], on a column that has no missing
    entry (both callers fill it first). *)
Definition sort_values (kind : SortKind) (by_ : string) (df : DataFrame)
  : result DataFrame :=
  if mem by_ (columns df) then
    krs <- keyed by_ (rows df) ;;
    Ok {| columns := columns df; rows := map snd (sort_desc kind krs) |}
  else Raise (KeyError by_).

Fixpoint keep_first (key : string) (seen : list cell) (rs : list Row) : list Row :=
  match rs with
  | [] => []
  | r :: rest =>
      if existsb (cell_eqb (get key r)) seen then keep_first key seen rest
      else r :: keep_first key (get key r :: seen) rest
  end.

(** [df.drop_duplicates(subset=[key], keep="first")] *)
Definition drop_duplicates (key : string) (df : DataFrame) : result DataFrame :=
  if mem key (columns df) then
    if forallb (fun r => hashable (get key r)) (rows df) then
      Ok {| columns := columns df; rows := keep_first key [] (rows df) |}
    else Raise TypeError
  else Raise (KeyError key).

(** [pd.merge(left, right, on=on, how="left", suffixes=(lsuffix, rsuffix))]:
    a label other than [on] that both sides carry takes its side's suffix. *)
Definition merge (left right : DataFrame) (on lsuffix rsuffix : string)
  : result DataFrame :=
  if mem on (columns left) && mem on (columns right) then
    let rcols := filter (fun c => negb (String.eqb c on)) (columns right) in
    let lname c :=
      if negb (String.eqb c on) && mem c rcols then (c ++ lsuffix)%string else c in
    let rname c :=
      if mem c (columns left) then (c ++ rsuffix)%string else c in
    let lpart l := map (fun c => (lname c, get c l)) (columns left) in
    Ok {| columns := map lname (columns left) ++ map rname rcols;
          rows :=
            flat_map
              (fun l =>
                 match filter (fun r => cell_eqb (get on l) (get on r)) (rows right) with
                 | [] => [lpart l ++ map (fun c => (rname c, NA)) rcols]
                 | matches =>
                     map (fun r => lpart l ++ map (fun c => (rname c, get c r)) rcols)
                         matches
                 end)
              (rows left) |}
  else Raise (KeyError on).

(** [df.to_csv(path, index=False)]: the header line and one line per row. *)
Definition to_csv (df : DataFrame) : Artifact :=
  {| header := columns df;
     data := map (fun r => map (fun c => get c r) (columns df)) (rows df) |}.

Section Str.

(** [str(x)] of a float or a list, which Python computes from the binary
    value. *)
Variable repr : cell -> string.

Definition str (c : cell) : string :=
  match c with
  | NA => "nan"
  | CBool true => "True"
  | CBool false => "False"
  | CInt z => NilZero.string_of_int (Z.to_int z)
  | CStr s => s
  | _ => repr c
  end.

(** [s.astype(str)] *)
Definition astype_str (s : Series) : Series :=
  map (fun c => CStr (str c)) s.

End Str.

(** [s + "-"] on a series of strings *)
Definition add_literal (s : Series) (lit : string) : Series :=
  map (fun a => match a with CStr x => CStr (x ++ lit)%string | _ => NA end) s.

(** [s + t] on two series of strings *)
Definition add (s t : Series) : Series :=
  map (fun ab =>
         match fst ab, snd ab with
         | CStr x, CStr y => CStr (x ++ y)%string
         | _, _ => NA
         end) (align NA s t).

End pd.

(** ** The world outside the scripts *)

(** What reading one catalog document yields: [open] or [read] raises, the
    text is blank once stripped, [json.loads] rejects it, or it parses. *)
Inductive catalog_doc : Type :=
| Unreadable
| Blank
| Malformed
| Parsed (data : json).

(** What [pd.read_csv] yields on one inventory file. *)
Inductive csv_source : Type :=
| CsvInvalid
| CsvTable (df : DataFrame).

(** [os.listdir]: the file names of a directory, each with its content. *)
Definition Dir (A : Type) : Type := list (string * A).

Record World : Type := mkWorld {
  fs : string -> option Artifact;
  stderr : list string;
  stdout : list string
}.

Definition write_file (path : string) (a : Artifact) (w : World) : World :=
  {| fs := fun p => if String.eqb p path then Some a else fs w p;
     stderr := stderr w;
     stdout := stdout w |}.

Definition write_stderr (msg : string) (w : World) : World :=
  {| fs := fs w; stderr := stderr w ++ [msg]; stdout := stdout w |}.

Definition print (msg : string) (w : World) : World :=
  {| fs := fs w; stderr := stderr w; stdout := stdout w ++ [msg] |}.

(** [d[k]] on a parsed object (its keys are distinct). *)
Fixpoint field (k : string) (fields : list (string * json)) : option json :=
  match fields with
  | [] => None
  | (k', v) :: rest => if String.eqb k' k then Some v else field k rest
  end.

Definition holofoil_market : string := "tcgplayer.prices.holofoil.market".
Definition normal_market : string := "tcgplayer.prices.normal.market".

(** The [columns=] mapping both loaders pass to [rename]. *)
Definition lookup_renames (c : string) : string :=
  if String.eqb c "id" then "card_id"
  else if String.eqb c "name" then "card_name"
  else if String.eqb c "number" then "card_number"
  else if String.eqb c "set.id" then "set_id"
  else if String.eqb c "set.name" then "set_name"
  else c.

Definition required_cols : list string :=
  ["card_id"; "card_name"; "card_number"; "set_id"; "set_name"; "card_market_value"].

Definition lookup_cols : list string :=
  ["card_id"; "card_name"; "set_name"; "card_market_value"].

(** The header of the portfolio written for an empty inventory. *)
Definition empty_cols : list string :=
  ["index"; "card_name"; "set_name"; "card_market_value";
   "binder_name"; "page_number"; "slot_number"].

Definition empty_message : string :=
  "Error: Inventory is empty. Creating empty portfolio." ++ String "010" "".

(** ** Labs/Lab_04/pokemon_lab/update_portfolio.py *)

Module Robust.

(** [data["data"] if isinstance(data, dict) and "data" in data else data] *)
Definition records_of (data : json) : json :=
  match data with
  | JObj fields =>
      match field "data" fields with
      | Some records => records
      | None => data
      end
  | _ => data
  end.

(** [for col in [...]: if col not in df.columns: df[col] = ...] *)
Definition ensure_column (df : DataFrame) (col : string) : DataFrame :=
  if mem col (columns df) then df
  else pd.setitem df col
         (pd.Series_const
            (if String.eqb col "card_market_value" then CFloat 0 else NA) df).

(** The body of the loop of [_load_lookup_data] on the records of one
    document, from [json_normalize] to the frame appended to
    [all_lookup_df]. *)
Definition lookup_frame (records : list json) : result DataFrame :=
  df <- pd.json_normalize records ;;
  let s1 := pd.get_or df holofoil_market (pd.Series_const (CFloat 0) df) in
  let s2 := pd.get_or df normal_market (pd.Series_const (CFloat 0) df) in
  let df := pd.setitem df "card_market_value"
              (pd.fillna (pd.fillna_series s1 s2) (CFloat 0)) in
  let df := pd.rename lookup_renames df in
  let df := fold_left ensure_column required_cols df in
  pd.select df required_cols.

(** The loop of [_load_lookup_data]: a file that is not [.json], cannot be
    read, is blank or malformed, or holds no non-empty list of records is
    passed over. *)
Fixpoint lookup_frames (files : Dir catalog_doc) : result (list DataFrame) :=
  match files with
  | [] => Ok []
  | (file, doc) :: rest =>
      if negb (endswith file ".json") then lookup_frames rest
      else
        match doc with
        | Parsed data =>
            match records_of data with
            | JArr (r :: records) =>
                df <- lookup_frame (r :: records) ;;
                dfs <- lookup_frames rest ;;
                Ok (df :: dfs)
            | _ => lookup_frames rest
            end
        | _ => lookup_frames rest
        end
  end.

Definition _load_lookup_data (kind : SortKind) (lookup_dir : Dir catalog_doc)
  : result DataFrame :=
  all_lookup_df <- lookup_frames lookup_dir ;;
  match all_lookup_df with
  | [] => Ok (pd.DataFrame_columns required_cols)
  | _ :: _ =>
      lookup_df <- pd.sort_values kind "card_market_value"
                     (pd.concat all_lookup_df) ;;
      pd.drop_duplicates "card_id" lookup_df
  end.

Fixpoint inventory_frames (files : Dir csv_source) : result (list DataFrame) :=
  match files with
  | [] => Ok []
  | (file, src) :: rest =>
      if endswith file ".csv" then
        match src with
        | CsvTable df => dfs <- inventory_frames rest ;; Ok (df :: dfs)
        | CsvInvalid => Raise ValueError
        end
      else inventory_frames rest
  end.

Section Run.

Variable repr : cell -> string.

Definition _load_inventory_data (inventory_dir : Dir csv_source)
  : result DataFrame :=
  inventory_data <- inventory_frames inventory_dir ;;
  match inventory_data with
  | [] => Ok (pd.DataFrame_columns [])
  | _ :: _ =>
      let inventory_df := pd.concat inventory_data in
      set_id <- pd.getitem inventory_df "set_id" ;;
      card_number <- pd.getitem inventory_df "card_number" ;;
      Ok (pd.setitem inventory_df "card_id"
            (pd.add (pd.add_literal (pd.astype_str repr set_id) "-")
                    (pd.astype_str repr card_number)))
  end.

(** The local helper [s(df, col, default)]. *)
Definition s (df : DataFrame) (col : string) (default : cell) : Series :=
  if mem col (columns df) then map (get col) (rows df)
  else pd.Series_const default df.

Definition final_cols : list string :=
  ["index"; "binder_name"; "page_number"; "slot_number";
   "card_name"; "card_number"; "set_id"; "set_name"; "card_market_value"].

(** [update_portfolio] on a non-empty inventory, from [left_cols] to the
    frame handed to [to_csv]. *)
Definition portfolio (inventory_df lookup_df : DataFrame) : result DataFrame :=
  let left_cols :=
    filter (fun c => negb (mem c ["card_name"; "set_name"]))
           (columns inventory_df) in
  left <- pd.select inventory_df left_cols ;;
  right <- pd.select lookup_df lookup_cols ;;
  merged_df <- pd.merge left right "card_id" "_inv" "" ;;
  let merged_df :=
    pd.setitem merged_df "card_name"
      (pd.fillna
         (pd.combine_first (s merged_df "card_name" NA)
                           (s merged_df "card_name_inv" NA))
         (CStr "NOT_FOUND")) in
  let merged_df :=
    pd.setitem merged_df "set_name"
      (pd.fillna
         (pd.combine_first (s merged_df "set_name" NA)
                           (s merged_df "set_name_inv" NA))
         (CStr "NOT_FOUND")) in
  let merged_df :=
    pd.setitem merged_df "card_market_value"
      (pd.fillna (s merged_df "card_market_value" (CFloat 0)) (CFloat 0)) in
  binder_name <- pd.getitem merged_df "binder_name" ;;
  page_number <- pd.getitem merged_df "page_number" ;;
  slot_number <- pd.getitem merged_df "slot_number" ;;
  let merged_df :=
    pd.setitem merged_df "index"
      (pd.add
         (pd.add_literal
            (pd.add (pd.add_literal (pd.astype_str repr binder_name) "-")
                    (pd.astype_str repr page_number)) "-")
         (pd.astype_str repr slot_number)) in
  pd.select merged_df final_cols.

Definition update_portfolio (kind : SortKind)
    (inventory_dir : Dir csv_source) (lookup_dir : Dir catalog_doc)
    (output_file : string) (w : World) : result unit * World :=
  match _load_lookup_data kind lookup_dir with
  | Raise e => (Raise e, w)
  | Ok lookup_df =>
      match _load_inventory_data inventory_dir with
      | Raise e => (Raise e, w)
      | Ok inventory_df =>
          if pd.empty inventory_df then
            let w := write_stderr empty_message w in
            (Ok tt,
             write_file output_file
               (pd.to_csv (pd.DataFrame_columns empty_cols)) w)
          else
            match portfolio inventory_df lookup_df with
            | Raise e => (Raise e, w)
            | Ok final =>
                let w := write_file output_file (pd.to_csv final) w in
                (Ok tt,
                 print ("Portfolio successfully updated: " ++ output_file) w)
            end
      end
  end.

End Run.

End Robust.

(** ** Labs/Lab_04/pokemon_lab/pokemon_lab/update_portfolio.py *)

Module Legacy.

(** [pd.read_json(f)] followed by [data["data"]], on the documents the
    card API serves: an object whose [data] field lists the cards.  Any
    other content raises. *)
Definition read_data (doc : catalog_doc) : result (list json) :=
  match doc with
  | Unreadable => Raise OSError
  | Blank => Raise ValueError
  | Malformed => Raise ValueError
  | Parsed (JObj fields) =>
      match field "data" fields with
      | Some (JArr records) => Ok records
      | Some _ => Raise ValueError
      | None => Raise (KeyError "data")
      end
  | Parsed _ => Raise (KeyError "data")
  end.

Definition lookup_frame (records : list json) : result DataFrame :=
  df <- pd.json_normalize records ;;
  holofoil <- pd.getitem df holofoil_market ;;
  normal <- pd.getitem df normal_market ;;
  let df := pd.setitem df "card_market_value"
              (pd.fillna (pd.fillna_series holofoil normal) (CFloat 0)) in
  let df := pd.rename lookup_renames df in
  pd.select df required_cols.

Fixpoint lookup_frames (files : Dir catalog_doc) : result (list DataFrame) :=
  match files with
  | [] => Ok []
  | (file, doc) :: rest =>
      if endswith file ".json" then
        records <- read_data doc ;;
        df <- lookup_frame records ;;
        dfs <- lookup_frames rest ;;
        Ok (df :: dfs)
      else lookup_frames rest
  end.

Definition _load_lookup_data (kind : SortKind) (lookup_dir : Dir catalog_doc)
  : result DataFrame :=
  all_lookup_df <- lookup_frames lookup_dir ;;
  match all_lookup_df with
  | [] => Ok (pd.DataFrame_columns required_cols)
  | _ :: _ =>
      lookup_df <- pd.sort_values kind "card_market_value"
                     (pd.concat all_lookup_df) ;;
      pd.drop_duplicates "card_id" lookup_df
  end.

Definition inventory_cols : list string :=
  ["card_name"; "set_id"; "card_number"; "binder_name"; "page_number";
   "slot_number"; "card_id"].

Section Run.

Variable repr : cell -> string.

Definition _load_inventory_data (inventory_dir : Dir csv_source)
  : result DataFrame :=
  inventory_data <- Robust.inventory_frames inventory_dir ;;
  match inventory_data with
  | [] => Ok (pd.DataFrame_columns inventory_cols)
  | _ :: _ =>
      let inventory_df := pd.concat inventory_data in
      set_id <- pd.getitem inventory_df "set_id" ;;
      card_number <- pd.getitem inventory_df "card_number" ;;
      Ok (pd.setitem inventory_df "card_id"
            (pd.add (pd.add_literal (pd.astype_str repr set_id) "-")
                    (pd.astype_str repr card_number)))
  end.

(** Assigned and never read: the frame is written with all its columns. *)
Definition final_cols : list string :=
  ["index"; "card_name"; "set_name"; "card_market_value";
   "binder_name"; "page_number"; "slot_number"].

Definition portfolio (inventory_df lookup_df : DataFrame) : result DataFrame :=
  right <- pd.select lookup_df lookup_cols ;;
  portfolio_df <- pd.merge inventory_df right "card_id" "_x" "_y" ;;
  value <- pd.getitem portfolio_df "card_market_value" ;;
  let portfolio_df :=
    pd.setitem portfolio_df "card_market_value" (pd.fillna value (CFloat 0)) in
  set_name <- pd.getitem portfolio_df "set_name" ;;
  let portfolio_df :=
    pd.setitem portfolio_df "set_name" (pd.fillna set_name (CStr "NOT_FOUND")) in
  binder_name <- pd.getitem portfolio_df "binder_name" ;;
  page_number <- pd.getitem portfolio_df "page_number" ;;
  slot_number <- pd.getitem portfolio_df "slot_number" ;;
  Ok (pd.setitem portfolio_df "index"
        (pd.add
           (pd.add_literal
              (pd.add (pd.add_literal (pd.astype_str repr binder_name) "-")
                      (pd.astype_str repr page_number)) "-")
           (pd.astype_str repr slot_number))).

Definition update_portfolio (kind : SortKind)
    (inventory_dir : Dir csv_source) (lookup_dir : Dir catalog_doc)
    (output_file : string) (w : World) : result unit * World :=
  match _load_lookup_data kind lookup_dir with
  | Raise e => (Raise e, w)
  | Ok lookup_df =>
      match _load_inventory_data inventory_dir with
      | Raise e => (Raise e, w)
      | Ok inventory_df =>
          if pd.empty inventory_df then
            let w := write_stderr empty_message w in
            (Ok tt,
             write_file output_file
               (pd.to_csv (pd.DataFrame_columns empty_cols)) w)
          else
            match portfolio inventory_df lookup_df with
            | Raise e => (Raise e, w)
            | Ok portfolio_df =>
                let w := write_file output_file (pd.to_csv portfolio_df) w in
                (Ok tt,
                 print ("✅ Portfolio successfully updated and saved to "
                          ++ output_file) w)
            end
      end
  end.

End Run.

End Legacy.

(** ** Two sort kinds *)

(** Insertion before the first row whose key is not larger: a row inserted
    ahead of rows with the same key stays ahead of them. *)
Fixpoint insert_desc (x : Q * Row) (l : list (Q * Row)) : list (Q * Row) :=
  match l with
  | [] => [x]
  | y :: l' =>
      if Qle_bool (fst y) (fst x) then x :: y :: l' else y :: insert_desc x l'
  end.

(** A stable descending sort, as [kind="stable"] gives. *)
Definition insertion_sort (l : list (Q * Row)) : list (Q * Row) :=
  fold_right insert_desc [] l.


Lemma insert_desc_perm (x : Q * Row) (l : list (Q * Row)) :
  Permutation (insert_desc x l) (x :: l).
Proof.
  induction l as [|y l IH]; simpl.
  - apply Permutation_refl.
  - destruct (Qle_bool (fst y) (fst x)).
    + apply Permutation_refl.
    + eapply perm_trans; [apply perm_skip, IH | apply perm_swap].
Qed.

Lemma insertion_sort_perm (l : list (Q * Row)) :
  Permutation (insertion_sort l) l.
Proof.
  induction l as [|x l IH]; simpl.
  - apply perm_nil.
  - eapply perm_trans; [apply insert_desc_perm | apply perm_skip, IH].
Qed.

Lemma key_ge_trans (a b c : Q * Row) : key_ge a b -> key_ge b c -> key_ge a c.
Proof.
  unfold key_ge; intros Hab Hbc. eapply Qle_trans; eassumption.
Qed.

Lemma insert_desc_sorted (x : Q * Row) (l : list (Q * Row)) :
  StronglySorted key_ge l -> StronglySorted key_ge (insert_desc x l).
Proof.
  induction 1 as [|y l Hl IH Hy]; simpl.
  - repeat constructor.
  - destruct (Qle_bool (fst y) (fst x)) eqn:E.
    + apply Qle_bool_iff in E.
      constructor; [constructor; assumption|].
      constructor; [exact E|].
      eapply Forall_impl; [|exact Hy].
      intros z Hz. eapply key_ge_trans; [exact E | exact Hz].
    + assert (Hxy : key_ge y x).
      { unfold key_ge. apply Qlt_le_weak, Qnot_le_lt.
        intro H. apply Qle_bool_iff in H. congruence. }
      constructor; [exact IH|].
      eapply Permutation_Forall.
      * apply Permutation_sym, insert_desc_perm.
      * constructor; assumption.
Qed.

Lemma insertion_sort_sorted (l : list (Q * Row)) :
  StronglySorted key_ge (insertion_sort l).
Proof.
  induction l as [|x l IH]; simpl.
  - constructor.
  - apply insert_desc_sorted, IH.
Qed.

Definition stable_kind : SortKind :=
  {| sort_desc := insertion_sort;
     sort_desc_perm := insertion_sort_perm;
     sort_desc_sorted := insertion_sort_sorted |}.



(** * Properties *)

(** ** Keys *)

Lemma Qeq_bool_sym (p q : Q) : Qeq_bool p q = Qeq_bool q p.
Proof.
  destruct (Qeq_bool p q) eqn:E, (Qeq_bool q p) eqn:F; try reflexivity.
  - apply Qeq_bool_iff, Qeq_sym, Qeq_bool_iff in E. congruence.
  - apply Qeq_bool_iff, Qeq_sym, Qeq_bool_iff in F. congruence.
Qed.


Lemma cell_eqb_sym (a b : cell) : cell_eqb a b = cell_eqb b a.
Proof.
  unfold cell_eqb.
  destruct (numeric_of a) as [p|] eqn:Ea, (numeric_of b) as [q|] eqn:Eb;
    try reflexivity.
  - apply Qeq_bool_sym.
  - destruct a, b; try reflexivity. apply String.eqb_sym.
Qed.



Lemma existsb_cell_eqb_false (k : cell) (seen : list cell) :
  existsb (cell_eqb k) seen = false ->
  forall x, In x seen -> cell_eqb x k = false.
Proof.
  intros H x Hx.
  rewrite cell_eqb_sym.
  destruct (cell_eqb k x) eqn:E; [|reflexivity].
  assert (existsb (cell_eqb k) seen = true) by (apply existsb_exists; eauto).
  congruence.
Qed.

Lemma keep_first_unseen (key : string) (rs : list Row) :
  forall seen r, In r (pd.keep_first key seen rs) ->
    In r rs /\ forall x, In x seen -> cell_eqb x (get key r) = false.
Proof.
  induction rs as [|h rs IH]; simpl; intros seen r Hr; [contradiction|].
  destruct (existsb (cell_eqb (get key h)) seen) eqn:E.
  - destruct (IH _ _ Hr) as [Hin Hs]. auto.
  - destruct Hr as [<-|Hr].
    + split; [auto|]. apply existsb_cell_eqb_false, E.
    + destruct (IH _ _ Hr) as [Hin Hs]. split; [auto|].
      intros x Hx. apply Hs. right. exact Hx.
Qed.



Lemma bind_Ok {A B : Type} (m : result A) (k : A -> result B) (b : B) :
  bind m k = Ok b -> exists a, m = Ok a /\ k a = Ok b.
Proof.
  destruct m as [a|e]; simpl; [eauto | discriminate].
Qed.

(** Unfolds a successful chain of binds in hypothesis [H]. *)
Ltac bind_inv H :=
  let a := fresh "a" in
  let Ha := fresh "Ha" in
  apply bind_Ok in H; destruct H as (a & Ha & H).




(** ** What the deduplication keeps *)


(** The market value of a catalog row as a number. *)
Definition market_value (r : Row) : Q :=
  match numeric_of (get "card_market_value" r) with
  | Some q => q
  | None => 0
  end.

Definition decorate (by_ : string) (r : Row) : Q * Row :=
  (match numeric_of (get by_ r) with Some q => q | None => 0%Q end, r).

Lemma keyed_decorate (by_ : string) (rs : list Row) (krs : list (Q * Row)) :
  pd.keyed by_ rs = Ok krs -> krs = map (decorate by_) rs.
Proof.
  revert krs. induction rs as [|r rs IH]; simpl; intros krs H.
  - injection H as <-. reflexivity.
  - unfold decorate at 1.
    destruct (numeric_of (get by_ r)) as [q|]; [|discriminate].
    bind_inv H. injection H as <-. f_equal. apply IH, Ha.
Qed.

Lemma map_snd_decorate (by_ : string) (rs : list Row) :
  map snd (map (decorate by_) rs) = rs.
Proof.
  rewrite map_map. simpl. apply map_id.
Qed.






(** ** The stable kind *)


(** The earliest row of largest key among the rows that satisfy [p]. *)
Fixpoint best (p : Q * Row -> bool) (l : list (Q * Row)) : option (Q * Row) :=
  match l with
  | [] => None
  | x :: l' =>
      if p x then
        match best p l' with
        | Some y => if Qle_bool (fst y) (fst x) then Some x else Some y
        | None => Some x
        end
      else best p l'
  end.






(** The shared tail of both loaders: sort by market value, then drop the
    duplicates of [card_id]. *)
Definition deduplicated (kind : SortKind) (raw df : DataFrame) : Prop :=
  exists sorted,
    pd.sort_values kind "card_market_value" raw = Ok sorted /\
    pd.drop_duplicates "card_id" sorted = Ok df.

Lemma deduplicated_rows (kind : SortKind) (raw df : DataFrame) :
  deduplicated kind raw df ->
  let l := sort_desc kind (map (decorate "card_market_value") (rows raw)) in
  rows df = pd.keep_first "card_id" [] (map snd l) /\
  forallb (fun r => hashable (get "card_id" r)) (map snd l) = true.
Proof.
  intros (sorted & Hs & Hd). unfold pd.sort_values in Hs.
  destruct (mem _ (columns raw)); [|discriminate].
  bind_inv Hs. injection Hs as <-.
  apply keyed_decorate in Ha. subst a.
  unfold pd.drop_duplicates in Hd. simpl in Hd.
  destruct (mem _ (columns raw)); [|discriminate].
  destruct (forallb _ _) eqn:F; [|discriminate].
  injection Hd as <-. simpl. auto.
Qed.

Lemma in_decorate_sorted (kind : SortKind) (by_ : string) (rs : list Row)
    (x : Q * Row) :
  In x (sort_desc kind (map (decorate by_) rs)) <->
  In (snd x) rs /\ x = decorate by_ (snd x).
Proof.
  split.
  - intros H. apply (Permutation_in _ (sort_desc_perm kind _)) in H.
    apply in_map_iff in H. destruct H as (r & <- & Hr). simpl. auto.
  - intros [H E].
    apply (Permutation_in _ (Permutation_sym (sort_desc_perm kind _))).
    rewrite E. apply in_map, H.
Qed.

Lemma deduplicated_subset (kind : SortKind) (raw df : DataFrame) (k : Row) :
  deduplicated kind raw df -> In k (rows df) -> In k (rows raw).
Proof.
  intros H Hk. apply deduplicated_rows in H. destruct H as [E _].
  rewrite E in Hk. apply keep_first_unseen in Hk. destruct Hk as [Hk _].
  apply in_map_iff in Hk. destruct Hk as (x & <- & Hx).
  apply in_decorate_sorted in Hx. tauto.
Qed.




Lemma Robust_lookup_deduplicated (kind : SortKind) (lookup_dir : Dir catalog_doc)
    (frames : list DataFrame) (df : DataFrame) :
  Robust.lookup_frames lookup_dir = Ok frames ->
  Robust._load_lookup_data kind lookup_dir = Ok df ->
  (frames = [] /\ df = pd.DataFrame_columns required_cols) \/
  deduplicated kind (pd.concat frames) df.
Proof.
  unfold Robust._load_lookup_data. intros -> H. simpl in H.
  destruct frames as [|f fs].
  - injection H as <-. left. auto.
  - right. bind_inv H. exists a. auto.
Qed.

Lemma Legacy_lookup_deduplicated (kind : SortKind) (lookup_dir : Dir catalog_doc)
    (frames : list DataFrame) (df : DataFrame) :
  Legacy.lookup_frames lookup_dir = Ok frames ->
  Legacy._load_lookup_data kind lookup_dir = Ok df ->
  (frames = [] /\ df = pd.DataFrame_columns required_cols) \/
  deduplicated kind (pd.concat frames) df.
Proof.
  unfold Legacy._load_lookup_data. intros -> H. simpl in H.
  destruct frames as [|f fs].
  - injection H as <-. left. auto.
  - right. bind_inv H. exists a. auto.
Qed.

(** The raw catalog of a run of either copy and the catalog its loader
    returns. *)
Definition loads (kind : SortKind) (lookup_dir : Dir catalog_doc)
    (frames : list DataFrame) (df : DataFrame) : Prop :=
  (Robust.lookup_frames lookup_dir = Ok frames /\
   Robust._load_lookup_data kind lookup_dir = Ok df) \/
  (Legacy.lookup_frames lookup_dir = Ok frames /\
   Legacy._load_lookup_data kind lookup_dir = Ok df).

Lemma loads_deduplicated (kind : SortKind) (lookup_dir : Dir catalog_doc)
    (frames : list DataFrame) (df : DataFrame) :
  loads kind lookup_dir frames df ->
  (frames = [] /\ df = pd.DataFrame_columns required_cols) \/
  deduplicated kind (pd.concat frames) df.
Proof.
  intros [[Hf Hl]|[Hf Hl]].
  - eapply Robust_lookup_deduplicated; eassumption.
  - eapply Legacy_lookup_deduplicated; eassumption.
Qed.




(** ** Both copies at once *)

Inductive copy : Type :=
| primary
| nested.

Definition load_lookup (c : copy)
  : SortKind -> Dir catalog_doc -> result DataFrame :=
  match c with
  | primary => Robust._load_lookup_data
  | nested => Legacy._load_lookup_data
  end.

Definition load_inventory (c : copy) (repr : cell -> string)
  : Dir csv_source -> result DataFrame :=
  match c with
  | primary => Robust._load_inventory_data repr
  | nested => Legacy._load_inventory_data repr
  end.

Definition run (c : copy) (repr : cell -> string)
  : SortKind -> Dir csv_source -> Dir catalog_doc -> string -> World ->
    result unit * World :=
  match c with
  | primary => Robust.update_portfolio repr
  | nested => Legacy.update_portfolio repr
  end.

(** ** Sample inputs *)

(** The inputs below hold no float and no list where a string is taken, so
    any rendering of those serves. *)
Definition sample_repr (c : cell) : string := "?".

Definition empty_world : World :=
  {| fs := fun _ => None; stderr := []; stdout := [] |}.

Definition card (id name number set_id set_name : string)
    (prices : list (string * json)) : json :=
  JObj [("id", JStr id); ("name", JStr name); ("number", JStr number);
        ("set", JObj [("id", JStr set_id); ("name", JStr set_name)]);
        ("tcgplayer", JObj [("prices", JObj prices)])].

Definition holofoil (q : Q) : string * json :=
  ("holofoil", JObj [("market", JFloat q)]).

Definition normal (q : Q) : string * json :=
  ("normal", JObj [("market", JFloat q)]).

Definition slot (name set_id : string) (number : Z) (binder : string)
    (page position : Z) : Row :=
  [("card_name", CStr name); ("set_id", CStr set_id);
   ("card_number", CInt number); ("binder_name", CStr binder);
   ("page_number", CInt page); ("slot_number", CInt position)].

Definition slot_cols : list string :=
  ["card_name"; "set_id"; "card_number"; "binder_name"; "page_number";
   "slot_number"].

(** ** Documents that are passed over *)




(** ** The empty inventory *)


Definition one_card_dir : Dir catalog_doc :=
  [("base1.json",
    Parsed (JObj [("data",
      JArr [card "base1-4" "Charizard" "4" "base1" "Base" [holofoil (25 # 2)]])]))].


(** ** Columns and row counts of the pandas operations *)

Lemma mem_In (c : string) (cols : list string) :
  mem c cols = true <-> In c cols.
Proof.
  unfold mem. rewrite existsb_exists. split.
  - intros (x & Hx & E). apply String.eqb_eq in E. subst. exact Hx.
  - intros H. exists c. split; [exact H | apply String.eqb_refl].
Qed.

Lemma mem_app (c : string) (a b : list string) :
  mem c (a ++ b) = mem c a || mem c b.
Proof. apply existsb_app. Qed.

Lemma length_align {A B : Type} (d : B) (xs : list A) (ys : list B) :
  List.length (align d xs ys) = List.length xs.
Proof.
  revert ys. induction xs as [|x xs IH]; simpl; intros ys; [reflexivity|].
  rewrite IH. reflexivity.
Qed.

Lemma setitem_length (df : DataFrame) (c : string) (s : Series) :
  List.length (rows (pd.setitem df c s)) = List.length (rows df).
Proof. simpl. rewrite length_map. apply length_align. Qed.

Lemma setitem_mem_same (df : DataFrame) (c : string) (s : Series) :
  mem c (columns (pd.setitem df c s)) = true.
Proof.
  simpl. destruct (mem c (columns df)) eqn:E; [exact E|].
  rewrite mem_app. simpl. rewrite String.eqb_refl. apply orb_true_r.
Qed.

Lemma setitem_mem_other (df : DataFrame) (c c' : string) (s : Series) :
  String.eqb c c' = false ->
  mem c (columns (pd.setitem df c' s)) = mem c (columns df).
Proof.
  intros N. simpl. destruct (mem c' (columns df)); [reflexivity|].
  rewrite mem_app. simpl. rewrite N. rewrite !orb_false_r. reflexivity.
Qed.

Lemma select_Ok (df : DataFrame) (cols : list string) :
  forallb (fun c => mem c (columns df)) cols = true ->
  pd.select df cols =
  Ok {| columns := cols;
        rows := map (fun r => map (fun c => (c, get c r)) cols) (rows df) |}.
Proof.
  intros H. unfold pd.select.
  destruct (find _ cols) as [c|] eqn:F; [|reflexivity].
  apply find_some in F. destruct F as [Hc Hn].
  rewrite forallb_forall in H. rewrite (H c Hc) in Hn. discriminate.
Qed.

Lemma select_inv (df out : DataFrame) (cols : list string) :
  pd.select df cols = Ok out ->
  forallb (fun c => mem c (columns df)) cols = true /\
  out = {| columns := cols;
           rows := map (fun r => map (fun c => (c, get c r)) cols) (rows df) |}.
Proof.
  unfold pd.select. destruct (find _ cols) as [c|] eqn:F; [discriminate|].
  intros [= <-]. split; [|reflexivity].
  apply forallb_forall. intros c Hc.
  apply (find_none _ _ F) in Hc. apply negb_false_iff, Hc.
Qed.


Lemma getitem_inv (df : DataFrame) (c : string) (s : Series) :
  pd.getitem df c = Ok s -> mem c (columns df) = true.
Proof.
  unfold pd.getitem. destruct (mem c (columns df)); [reflexivity | discriminate].
Qed.

Lemma get_restrict (c : string) (cols : list string) (r : Row) :
  mem c cols = true -> get c (map (fun c => (c, get c r)) cols) = get c r.
Proof.
  induction cols as [|x cols IH]; simpl; [discriminate|].
  rewrite String.eqb_sym. destruct (String.eqb x c) eqn:E.
  - intros _. apply String.eqb_eq in E. subst. reflexivity.
  - exact IH.
Qed.





Lemma mem_filter (f : string -> bool) (c : string) (l : list string) :
  mem c (filter f l) = f c && mem c l.
Proof.
  induction l as [|x l IH]; simpl; [rewrite andb_false_r; reflexivity|].
  destruct (String.eqb c x) eqn:E.
  - apply String.eqb_eq in E. subst x. destruct (f c) eqn:F; simpl.
    + rewrite String.eqb_refl. reflexivity.
    + rewrite IH. reflexivity.
  - destruct (f x); simpl; [rewrite E|]; exact IH.
Qed.


Lemma mem_union_columns (c : string) (cols acc : list string) :
  mem c (pd.union_columns acc cols) = mem c acc || mem c cols.
Proof.
  unfold pd.union_columns. revert acc.
  induction cols as [|x cols IH]; simpl; intros acc.
  - rewrite orb_false_r. reflexivity.
  - rewrite IH. destruct (mem x acc) eqn:E.
    + destruct (String.eqb c x) eqn:F; [|reflexivity].
      apply String.eqb_eq in F. subst x. rewrite E. reflexivity.
    + rewrite mem_app. simpl. rewrite orb_false_r, orb_assoc. reflexivity.
Qed.

Lemma mem_concat (c : string) (dfs : list DataFrame) :
  mem c (columns (pd.concat dfs)) =
  existsb (fun df => mem c (columns df)) dfs.
Proof.
  unfold pd.concat. simpl.
  enough (G : forall acc,
             mem c (fold_left (fun a df => pd.union_columns a (columns df)) dfs acc)
             = mem c acc || existsb (fun df => mem c (columns df)) dfs)
    by (rewrite G; reflexivity).
  induction dfs as [|df dfs IH]; simpl; intros acc.
  - rewrite orb_false_r. reflexivity.
  - rewrite IH, mem_union_columns, orb_assoc. reflexivity.
Qed.

Lemma length_concat (dfs : list DataFrame) :
  List.length (rows (pd.concat dfs)) =
  list_sum (map (fun df => List.length (rows df)) dfs).
Proof.
  unfold pd.concat. simpl. generalize (fold_left
    (fun a df => pd.union_columns a (columns df)) dfs []) as cols.
  intros cols. induction dfs as [|df dfs IH]; simpl; [reflexivity|].
  rewrite length_app, IH. unfold pd.widen. rewrite length_map. reflexivity.
Qed.

(** Frames that all carry the six catalog columns concatenate to a frame
    with those columns. *)
Lemma concat_required (df : DataFrame) (dfs : list DataFrame) :
  Forall (fun f => columns f = required_cols) (df :: dfs) ->
  columns (pd.concat (df :: dfs)) = required_cols.
Proof.
  intros H. unfold pd.concat. simpl.
  inversion H as [|? ? Hdf Hdfs]; subst. rewrite Hdf.
  change (pd.union_columns [] required_cols) with required_cols.
  clear H Hdf. induction Hdfs as [|f fs Hf Hfs IH]; simpl; [reflexivity|].
  rewrite Hf. exact IH.
Qed.

Lemma sort_values_columns (kind : SortKind) (by_ : string) (df out : DataFrame) :
  pd.sort_values kind by_ df = Ok out -> columns out = columns df.
Proof.
  unfold pd.sort_values. destruct (mem by_ (columns df)); [|discriminate].
  intros H. bind_inv H. injection H as <-. reflexivity.
Qed.

Lemma drop_duplicates_columns (key : string) (df out : DataFrame) :
  pd.drop_duplicates key df = Ok out -> columns out = columns df.
Proof.
  unfold pd.drop_duplicates. destruct (mem key (columns df)); [|discriminate].
  destruct (forallb _ _); [|discriminate].
  intros [= <-]. reflexivity.
Qed.

Lemma Robust_lookup_frame_columns (records : list json) (df : DataFrame) :
  Robust.lookup_frame records = Ok df -> columns df = required_cols.
Proof.
  unfold Robust.lookup_frame. intros H. bind_inv H.
  apply select_inv in H. destruct H as [_ ->]. reflexivity.
Qed.

Lemma Robust_lookup_frames_columns (lookup_dir : Dir catalog_doc) :
  forall frames, Robust.lookup_frames lookup_dir = Ok frames ->
    Forall (fun f => columns f = required_cols) frames.
Proof.
  induction lookup_dir as [|[file doc] rest IH]; simpl; intros frames H.
  - injection H as <-. constructor.
  - destruct (negb (endswith file ".json")); [apply IH, H|].
    destruct doc as [| | |content]; try (apply IH, H).
    destruct (Robust.records_of content) as [| | | | |[|r records]|];
      try (apply IH, H).
    bind_inv H. bind_inv H. injection H as <-.
    constructor; [eapply Robust_lookup_frame_columns, Ha | apply IH, Ha0].
Qed.

Lemma Legacy_lookup_frames_columns (lookup_dir : Dir catalog_doc) :
  forall frames, Legacy.lookup_frames lookup_dir = Ok frames ->
    Forall (fun f => columns f = required_cols) frames.
Proof.
  induction lookup_dir as [|[file doc] rest IH]; simpl; intros frames H.
  - injection H as <-. constructor.
  - destruct (endswith file ".json"); [|apply IH, H].
    bind_inv H. bind_inv H. bind_inv H. injection H as <-.
    constructor; [|apply IH, Ha1].
    unfold Legacy.lookup_frame in Ha0. bind_inv Ha0. bind_inv Ha0. bind_inv Ha0.
    apply select_inv in Ha0. destruct Ha0 as [_ ->]. reflexivity.
Qed.

(** The catalog either loader returns has the six catalog columns. *)
Lemma lookup_columns (c : copy) (kind : SortKind) (lookup_dir : Dir catalog_doc)
    (df : DataFrame) :
  load_lookup c kind lookup_dir = Ok df -> columns df = required_cols.
Proof.
  assert (G : forall frames,
             Forall (fun f => columns f = required_cols) frames ->
             match frames with
             | [] => Ok (pd.DataFrame_columns required_cols)
             | _ :: _ =>
                 lookup_df <- pd.sort_values kind "card_market_value"
                                (pd.concat frames) ;;
                 pd.drop_duplicates "card_id" lookup_df
             end = Ok df -> columns df = required_cols).
  { intros [|f fs] HF H.
    - injection H as <-. reflexivity.
    - bind_inv H. apply drop_duplicates_columns in H.
      apply sort_values_columns in Ha. rewrite H, Ha.
      apply concat_required, HF. }
  destruct c; simpl; intros H.
  - unfold Robust._load_lookup_data in H. bind_inv H.
    eapply G; [eapply Robust_lookup_frames_columns, Ha | exact H].
  - unfold Legacy._load_lookup_data in H. bind_inv H.
    eapply G; [eapply Legacy_lookup_frames_columns, Ha | exact H].
Qed.

Lemma mem_setitem (df : DataFrame) (c c' : string) (s : Series) :
  mem c (columns (pd.setitem df c' s)) = mem c (columns df) || String.eqb c c'.
Proof.
  simpl. destruct (mem c' (columns df)) eqn:E.
  - destruct (String.eqb c c') eqn:F; [|rewrite orb_false_r; reflexivity].
    apply String.eqb_eq in F. subst c'. rewrite E. reflexivity.
  - rewrite mem_app. simpl. rewrite orb_false_r. reflexivity.
Qed.


(** ** The merge of the primary copy *)

Definition catalog_names : list string :=
  ["card_name"; "set_name"; "card_market_value"].

Definition suffixed_names : list string :=
  ["card_name_inv"; "set_name_inv"; "card_market_value_inv"].

Lemma mem_three (x a b c : string) :
  mem x [a; b; c] = true -> x = a \/ x = b \/ x = c.
Proof.
  simpl. rewrite orb_false_r, !orb_true_iff, !String.eqb_eq. tauto.
Qed.

Lemma mem_map_eqb (c : string) (f : string -> string) (l : list string) :
  (forall x, String.eqb c (f x) = String.eqb c x) ->
  mem c (map f l) = mem c l.
Proof.
  intros H. induction l as [|a l IH]; simpl; [reflexivity|].
  rewrite H. f_equal. exact IH.
Qed.

Lemma mem_map_inv_suffix (c : string) (l : list string) :
  mem c (catalog_names ++ suffixed_names) = false ->
  mem c (map (fun x =>
                if negb (String.eqb x "card_id") && mem x catalog_names
                then (x ++ "_inv")%string else x) l) = mem c l.
Proof.
  intros H. simpl in H. rewrite !orb_false_iff in H.
  destruct H as (N1 & N2 & N3 & N4 & N5 & N6 & _).
  apply mem_map_eqb. intros a.
  destruct (negb (String.eqb a "card_id") && mem a catalog_names) eqn:E;
    [|reflexivity].
  apply andb_true_iff in E. destruct E as [_ E].
  apply mem_three in E. destruct E as [-> | [-> | ->]]; simpl; congruence.
Qed.

Lemma Robust_merge_columns (left right out : DataFrame) :
  pd.merge left right "card_id" "_inv" "" = Ok out ->
  columns right = lookup_cols ->
  (forall c, mem c (catalog_names ++ suffixed_names) = false ->
             mem c (columns out) = mem c (columns left)) /\
  (forall c, mem c catalog_names = true -> mem c (columns out) = true).
Proof.
  unfold pd.merge. destruct (_ && _); [|discriminate].
  intros [= <-] Hr. cbn [columns]. rewrite Hr.
  change (filter (fun c => negb (String.eqb c "card_id")) lookup_cols)
    with catalog_names.
  assert (R : map (fun c => if mem c (columns left) then (c ++ "")%string else c)
                  catalog_names = catalog_names).
  { simpl. destruct (mem "card_name" _), (mem "set_name" _),
      (mem "card_market_value" _); reflexivity. }
  rewrite R. split; intros c Hc; rewrite mem_app.
  - pose proof Hc as Hn. rewrite mem_app in Hn.
    apply orb_false_iff in Hn. destruct Hn as [-> _].
    rewrite (mem_map_inv_suffix c (columns left) Hc). apply orb_false_r.
  - rewrite Hc. apply orb_true_r.
Qed.

Definition location_cols : list string :=
  ["binder_name"; "page_number"; "slot_number"].

(** A portfolio is only built from an inventory that has the three location
    columns. *)
Lemma Robust_portfolio_inv (repr : cell -> string)
    (inventory_df lookup_df final : DataFrame) :
  Robust.portfolio repr inventory_df lookup_df = Ok final ->
  columns lookup_df = required_cols ->
  forallb (fun c => mem c (columns inventory_df)) location_cols = true.
Proof.
  unfold Robust.portfolio. intros H Hcols.
  bind_inv H. bind_inv H. bind_inv H. cbv zeta in H.
  bind_inv H. bind_inv H. bind_inv H.
  apply select_inv in Ha, Ha0. destruct Ha as [_ ->], Ha0 as [_ ->].
  destruct (Robust_merge_columns _ _ _ Ha1 eq_refl) as [M _].
  simpl columns in M.
  assert (G : forall c s1 s2 s3 s0,
             mem c (catalog_names ++ suffixed_names) = false ->
             String.eqb c "card_name" = false ->
             String.eqb c "set_name" = false ->
             String.eqb c "card_market_value" = false ->
             pd.getitem
               (pd.setitem (pd.setitem (pd.setitem a1 "card_name" s1)
                              "set_name" s2) "card_market_value" s3) c = Ok s0 ->
             mem c (columns inventory_df) = true).
  { intros c s1 s2 s3 s0 Hc N1 N2 N3 Hs. apply getitem_inv in Hs.
    rewrite !mem_setitem, N1, N2, N3, !orb_false_r, (M c Hc), mem_filter in Hs.
    apply andb_true_iff in Hs. tauto. }
  simpl.
  rewrite (G "binder_name" _ _ _ _ eq_refl eq_refl eq_refl eq_refl Ha2).
  rewrite (G "page_number" _ _ _ _ eq_refl eq_refl eq_refl eq_refl Ha3).
  rewrite (G "slot_number" _ _ _ _ eq_refl eq_refl eq_refl eq_refl Ha4).
  reflexivity.
Qed.

Definition inventory_required : list string :=
  ["card_id"; "set_id"; "card_number"; "binder_name"; "page_number";
   "slot_number"].

Lemma forallb_mem (df : DataFrame) (cols : list string) (c : string) :
  forallb (fun c => mem c (columns df)) cols = true ->
  In c cols -> mem c (columns df) = true.
Proof.
  intros H Hc. rewrite forallb_forall in H. apply H, Hc.
Qed.


(** ** The inventory loader *)

(** The tables of the [.csv] files of a directory, in listing order. *)
Definition sources (dir : Dir csv_source) : list DataFrame :=
  flat_map (fun f =>
              if endswith (fst f) ".csv" then
                match snd f with
                | CsvTable df => [df]
                | CsvInvalid => []
                end
              else []) dir.

Lemma inventory_frames_sources (dir : Dir csv_source) :
  forall frames, Robust.inventory_frames dir = Ok frames -> frames = sources dir.
Proof.
  induction dir as [|[file src] rest IH]; simpl; intros frames H.
  - injection H as <-. reflexivity.
  - destruct (endswith file ".csv"); [|apply IH, H].
    destruct src as [|df]; [discriminate|].
    bind_inv H. injection H as <-. simpl. f_equal. apply IH, Ha.
Qed.

(** What the primary loader returns: nothing at all without sources, else
    the concatenated sources with the derived identifier. *)
Lemma Robust_inventory_inv (repr : cell -> string) (dir : Dir csv_source)
    (inventory_df : DataFrame) :
  Robust._load_inventory_data repr dir = Ok inventory_df ->
  (sources dir = [] /\ inventory_df = pd.DataFrame_columns []) \/
  (sources dir <> [] /\
   mem "set_id" (columns (pd.concat (sources dir))) = true /\
   mem "card_number" (columns (pd.concat (sources dir))) = true /\
   exists s, inventory_df = pd.setitem (pd.concat (sources dir)) "card_id" s).
Proof.
  unfold Robust._load_inventory_data. intros H. bind_inv H.
  apply inventory_frames_sources in Ha. subst a.
  destruct (sources dir) as [|f fs] eqn:E.
  - injection H as <-. left. auto.
  - right. bind_inv H. bind_inv H. injection H as <-.
    apply getitem_inv in Ha, Ha0.
    split; [discriminate|]. split; [exact Ha|]. split; [exact Ha0|]. eauto.
Qed.

Lemma not_empty (df : DataFrame) (c : string) :
  mem c (columns df) = true -> rows df <> [] -> pd.empty df = false.
Proof.
  unfold pd.empty. destruct (columns df); [discriminate|].
  destruct (rows df); [congruence | reflexivity].
Qed.


Lemma Robust_portfolio_columns (repr : cell -> string)
    (inventory_df lookup_df final : DataFrame) :
  Robust.portfolio repr inventory_df lookup_df = Ok final ->
  columns final = Robust.final_cols.
Proof.
  unfold Robust.portfolio. intros H.
  bind_inv H. bind_inv H. bind_inv H. cbv zeta in H.
  bind_inv H. bind_inv H. bind_inv H.
  apply select_inv in H. destruct H as [_ ->]. reflexivity.
Qed.

(** ** Row count *)


(** ** A sample run *)

(** A catalog in two documents, the second quoting the first card again at a
    lower price, and an inventory of two slots of which one is in the
    catalog. *)
Definition sample_lookup_dir : Dir catalog_doc :=
  [("base1.json",
    Parsed (JObj [("data",
      JArr [card "base1-4" "Charizard" "4" "base1" "Base" [holofoil (25 # 2)];
            card "base1-58" "Pikachu" "58" "base1" "Base" [normal (7 # 2)]])]));
   ("notes.txt", Blank);
   ("rescrape.json",
    Parsed (JArr [card "base1-4" "Charizard" "4" "base1" "Base" [holofoil 8]]))].

Definition sample_inventory_dir : Dir csv_source :=
  [("inventory.csv",
    CsvTable {| columns := slot_cols;
                rows := [slot "Charizard" "base1" 4 "B1" 1 1;
                         slot "Mystery" "zzz" 9 "B1" 1 2] |})].


Definition sample_lookup_df : DataFrame :=
  Eval vm_compute in
    match Robust._load_lookup_data stable_kind sample_lookup_dir with
    | Ok df => df
    | Raise _ => pd.DataFrame_columns []
    end.

Definition sample_inventory_df : DataFrame :=
  Eval vm_compute in
    match Robust._load_inventory_data sample_repr sample_inventory_dir with
    | Ok df => df
    | Raise _ => pd.DataFrame_columns []
    end.




(** ** Equal market values *)






(** ** The columns of the portfolio *)

(** The column order of the specification: the location key, the
    catalog-derived display fields, the physical-location fields. *)
Definition specified_cols : list string :=
  ["index"; "card_name"; "set_name"; "card_market_value";
   "binder_name"; "page_number"; "slot_number"].

Definition sample_portfolio : option Artifact :=
  fs (snd (Robust.update_portfolio sample_repr stable_kind sample_inventory_dir
             sample_lookup_dir "card_portfolio.csv" empty_world))
     "card_portfolio.csv".

(** A catalog the nested copy reads: one document, both price columns. *)
Definition priced_lookup_dir : Dir catalog_doc :=
  [("base1.json",
    Parsed (JObj [("data",
      JArr [card "base1-4" "Charizard" "4" "base1" "Base"
              [holofoil (25 # 2); normal 4]])]))].

Definition sample_portfolio_nested : option Artifact :=
  fs (snd (Legacy.update_portfolio sample_repr stable_kind sample_inventory_dir
             priced_lookup_dir "card_portfolio.csv" empty_world))
     "card_portfolio.csv".

(** C9, counterexample.  On the sample run the primary copy writes the
    location fields ahead of the catalog fields, and adds [card_number] and
    [set_id]; the nested copy writes every column of the merged frame, the
    location key last. *)
Lemma specified_order_counterexample :
  (exists artifact,
     sample_portfolio = Some artifact /\
     header artifact =
       ["index"; "binder_name"; "page_number"; "slot_number"; "card_name";
        "card_number"; "set_id"; "set_name"; "card_market_value"] /\
     header artifact <> specified_cols) /\
  (exists artifact,
     sample_portfolio_nested = Some artifact /\
     header artifact =
       ["card_name_x"; "set_id"; "card_number"; "binder_name"; "page_number";
        "slot_number"; "card_id"; "card_name_y"; "set_name";
        "card_market_value"; "index"] /\
     header artifact <> specified_cols).
Proof.
  split; eexists; (split; [vm_compute; reflexivity|]);
    (split; [reflexivity | discriminate]).
Qed.

(** C9, as amended.  When the primary copy returns normally on a non-empty
    inventory, the file at the destination holds the nine columns of
    [final_cols] in that order (the location key, the location fields, then
    the catalog fields), and holds the same table whatever the destination
    held before. *)
Theorem portfolio_columns_written :
  forall (repr : cell -> string) (kind : SortKind)
         (inventory_dir : Dir csv_source) (lookup_dir : Dir catalog_doc)
         (output_file : string) (w : World) (inventory_df : DataFrame),
    Robust._load_inventory_data repr inventory_dir = Ok inventory_df ->
    pd.empty inventory_df = false ->
    fst (Robust.update_portfolio repr kind inventory_dir lookup_dir
           output_file w) = Ok tt ->
    exists artifact,
      header artifact = Robust.final_cols /\
      forall w',
        fs (snd (Robust.update_portfolio repr kind inventory_dir lookup_dir
                   output_file w')) output_file = Some artifact.
Proof.
  intros repr kind inventory_dir lookup_dir output_file w inventory_df
         Hi He Hrun.
  unfold Robust.update_portfolio in *.
  destruct (Robust._load_lookup_data kind lookup_dir) as [lookup_df|e];
    [|discriminate Hrun].
  rewrite Hi, He in *.
  destruct (Robust.portfolio repr inventory_df lookup_df) as [final|e] eqn:P;
    [|discriminate Hrun].
  exists (pd.to_csv final). split.
  - apply (Robust_portfolio_columns _ _ _ _ P).
  - intros w'. cbn [snd fs print write_file].
    rewrite String.eqb_refl. reflexivity.
Qed.

Lemma portfolio_columns_written_witness :
  exists artifact,
    header artifact = Robust.final_cols /\
    forall w',
      fs (snd (Robust.update_portfolio sample_repr stable_kind
                 sample_inventory_dir sample_lookup_dir "card_portfolio.csv"
                 w')) "card_portfolio.csv" = Some artifact.
Proof.
  apply (portfolio_columns_written sample_repr stable_kind
           sample_inventory_dir sample_lookup_dir "card_portfolio.csv"
           empty_world sample_inventory_df); reflexivity.
Defined.

(** ** A required column that is missing *)

Definition required_inventory_cols : list string :=
  ["set_id"; "card_number"; "binder_name"; "page_number"; "slot_number"].

(** Two sources, the second without [binder_name]. *)
Definition uneven_inventory_dir : Dir csv_source :=
  [("binder1.csv",
    CsvTable {| columns := slot_cols;
                rows := [slot "Charizard" "base1" 4 "B1" 1 1] |});
   ("loose.csv",
    CsvTable {| columns := ["card_name"; "set_id"; "card_number";
                            "page_number"; "slot_number"];
                rows := [[("card_name", CStr "Pikachu"); ("set_id", CStr "base1");
                          ("card_number", CInt 58); ("page_number", CInt 1);
                          ("slot_number", CInt 2)]] |})].

(** C7, counterexample.  A source without [binder_name] beside a source that
    has it: the concatenation fills the column, the run returns normally and
    writes a portfolio of both rows. *)
Lemma missing_column_counterexample :
  (exists df, In df (sources uneven_inventory_dir) /\
              In "binder_name" required_inventory_cols /\
              mem "binder_name" (columns df) = false) /\
  fst (Robust.update_portfolio sample_repr stable_kind uneven_inventory_dir
         sample_lookup_dir "card_portfolio.csv" empty_world) = Ok tt /\
  exists artifact,
    fs (snd (Robust.update_portfolio sample_repr stable_kind
               uneven_inventory_dir sample_lookup_dir "card_portfolio.csv"
               empty_world)) "card_portfolio.csv" = Some artifact /\
    List.length (data artifact) = 2%nat.
Proof.
  split; [|split].
  - eexists. split; [right; left; reflexivity|]. split; [|reflexivity].
    simpl. tauto.
  - vm_compute. reflexivity.
  - eexists. split; vm_compute; reflexivity.
Qed.

Lemma list_sum_pos (l : list nat) (n : nat) :
  In n l -> (n <= list_sum l)%nat.
Proof.
  induction l as [|x l IH]; simpl; intros H; [contradiction|].
  destruct H as [->|H]; [lia|]. apply IH in H. lia.
Qed.

(** C7, as amended.  When a required column is in none of the inventory
    sources and some source has a row, [update_portfolio] raises and leaves
    the world as it was: nothing is written at the destination. *)
Theorem missing_column_aborts :
  forall (repr : cell -> string) (kind : SortKind)
         (inventory_dir : Dir csv_source) (lookup_dir : Dir catalog_doc)
         (output_file : string) (w : World) (c : string),
    In c required_inventory_cols ->
    (forall df, In df (sources inventory_dir) -> mem c (columns df) = false) ->
    (exists df, In df (sources inventory_dir) /\ rows df <> []) ->
    exists e,
      Robust.update_portfolio repr kind inventory_dir lookup_dir output_file w
      = (Raise e, w).
Proof.
  intros repr kind inventory_dir lookup_dir output_file w c Hc Hmiss
         (df0 & Hdf0 & Hrows).
  unfold Robust.update_portfolio.
  destruct (Robust._load_lookup_data kind lookup_dir) as [lookup_df|e] eqn:L;
    [|eauto].
  destruct (Robust._load_inventory_data repr inventory_dir)
    as [inventory_df|e] eqn:I; [|eauto].
  assert (Hconcat : mem c (columns (pd.concat (sources inventory_dir))) = false).
  { rewrite mem_concat.
    destruct (existsb _ (sources inventory_dir)) eqn:E; [|reflexivity].
    apply existsb_exists in E. destruct E as (df & Hdf & Hm).
    rewrite (Hmiss df Hdf) in Hm. discriminate. }
  apply Robust_inventory_inv in I.
  destruct I as [[E _]|(_ & H1 & H2 & s0 & ->)];
    [rewrite E in Hdf0; contradiction|].
  assert (Hloc : In c location_cols).
  { simpl in Hc. destruct Hc as [<-|[<-|Hc]]; [congruence | congruence | exact Hc]. }
  assert (Hne : pd.empty (pd.setitem (pd.concat (sources inventory_dir))
                            "card_id" s0) = false).
  { apply (not_empty _ "card_id"); [apply setitem_mem_same|].
    intros E. apply (f_equal (@List.length Row)) in E.
    rewrite setitem_length, length_concat in E. simpl in E.
    assert (Hle : (List.length (rows df0)
                   <= list_sum (map (fun df => List.length (rows df))
                                    (sources inventory_dir)))%nat).
    { apply list_sum_pos, in_map_iff. exists df0. auto. }
    destruct (rows df0); [congruence | simpl in Hle; lia]. }
  rewrite Hne.
  destruct (Robust.portfolio repr _ lookup_df) as [final|e] eqn:P; [|eauto].
  exfalso. apply Robust_portfolio_inv in P;
    [|apply (lookup_columns primary kind lookup_dir), L].
  pose proof (forallb_mem _ _ c P Hloc) as Hm.
  rewrite mem_setitem, Hconcat in Hm. simpl in Hm.
  simpl in Hloc. destruct Hloc as [<-|[<-|[<-|[]]]]; discriminate Hm.
Qed.

(** An inventory of one slot in a source that has no [binder_name]. *)
Definition unbound_inventory_dir : Dir csv_source :=
  [("loose.csv",
    CsvTable {| columns := ["card_name"; "set_id"; "card_number";
                            "page_number"; "slot_number"];
                rows := [[("card_name", CStr "Pikachu"); ("set_id", CStr "base1");
                          ("card_number", CInt 58); ("page_number", CInt 1);
                          ("slot_number", CInt 2)]] |})].

Lemma missing_column_aborts_witness :
  exists e,
    Robust.update_portfolio sample_repr stable_kind unbound_inventory_dir
      sample_lookup_dir "card_portfolio.csv" empty_world
    = (Raise e, empty_world).
Proof.
  apply (missing_column_aborts sample_repr stable_kind unbound_inventory_dir
           sample_lookup_dir "card_portfolio.csv" empty_world "binder_name").
  - simpl. tauto.
  - intros df [<-|[]]. reflexivity.
  - eexists. split; [left; reflexivity | discriminate].
Defined.

(** ** An inventory directory without sources *)

Definition no_sources (dir : Dir csv_source) : Prop :=
  forallb (fun f => negb (endswith (fst f) ".csv")) dir = true.

Lemma no_sources_frames (dir : Dir csv_source) :
  no_sources dir -> Robust.inventory_frames dir = Ok [].
Proof.
  unfold no_sources. induction dir as [|[file src] rest IH]; simpl; intros H;
    [reflexivity|].
  apply andb_true_iff in H. destruct H as [Hf Hrest].
  apply negb_true_iff in Hf. rewrite Hf. apply IH, Hrest.
Qed.

(** The inventory columns of the specification, the derived identifier
    included. *)
Definition column_complete (df : DataFrame) : Prop :=
  forall c, In c inventory_required -> In c (columns df).

(** An inventory file that is present and holds its header line only. *)
Definition header_only_dir : Dir csv_source :=
  [("inventory.csv", CsvTable {| columns := slot_cols; rows := [] |})].

(** C10, counterexample.  Without sources the primary loader returns a frame
    with no column at all; the nested loader returns the same frame for no
    sources as for a source that is present with zero rows; and the run of
    the primary copy is the same on both directories. *)
Lemma empty_inventory_counterexample :
  (exists df, Robust._load_inventory_data sample_repr [] = Ok df /\
              ~ column_complete df) /\
  Legacy._load_inventory_data sample_repr [] =
    Legacy._load_inventory_data sample_repr header_only_dir /\
  Robust.update_portfolio sample_repr stable_kind [] sample_lookup_dir
    "card_portfolio.csv" empty_world =
  Robust.update_portfolio sample_repr stable_kind header_only_dir
    sample_lookup_dir "card_portfolio.csv" empty_world.
Proof.
  split; [|split; reflexivity].
  eexists. split; [reflexivity|].
  intros H. apply (H "card_id"). left. reflexivity.
Qed.

(** C10, as amended.  On a directory without [.csv] files both loaders
    return a frame of zero rows, the nested one with its seven columns, the
    primary one with none; and [update_portfolio] then does exactly what it
    does on any inventory that loads with zero rows. *)
Theorem no_sources_inventory :
  forall (repr : cell -> string) (dir : Dir csv_source),
    no_sources dir ->
    Robust._load_inventory_data repr dir = Ok (pd.DataFrame_columns []) /\
    Legacy._load_inventory_data repr dir =
      Ok (pd.DataFrame_columns Legacy.inventory_cols) /\
    forall (c : copy) (kind : SortKind) (present : Dir csv_source)
           (inventory_df : DataFrame) (lookup_dir : Dir catalog_doc)
           (output_file : string) (w : World),
      load_inventory c repr present = Ok inventory_df ->
      rows inventory_df = [] ->
      run c repr kind dir lookup_dir output_file w =
      run c repr kind present lookup_dir output_file w.
Proof.
  intros repr dir H.
  assert (R : Robust._load_inventory_data repr dir = Ok (pd.DataFrame_columns [])).
  { unfold Robust._load_inventory_data. rewrite (no_sources_frames dir H).
    reflexivity. }
  assert (L : Legacy._load_inventory_data repr dir =
              Ok (pd.DataFrame_columns Legacy.inventory_cols)).
  { unfold Legacy._load_inventory_data. rewrite (no_sources_frames dir H).
    reflexivity. }
  split; [exact R|]. split; [exact L|].
  intros c kind present inventory_df lookup_dir output_file w Hp Hrows.
  assert (He : pd.empty inventory_df = true).
  { unfold pd.empty. rewrite Hrows. destruct (columns inventory_df); reflexivity. }
  destruct c; simpl in *.
  - unfold Robust.update_portfolio. rewrite R, Hp, He. reflexivity.
  - unfold Legacy.update_portfolio. rewrite L, Hp, He. reflexivity.
Qed.

Lemma no_sources_inventory_witness :
  Robust._load_inventory_data sample_repr [("readme.txt", CsvInvalid)] =
    Ok (pd.DataFrame_columns []) /\
  Legacy._load_inventory_data sample_repr [("readme.txt", CsvInvalid)] =
    Ok (pd.DataFrame_columns Legacy.inventory_cols) /\
  forall (c : copy) (kind : SortKind) (present : Dir csv_source)
         (inventory_df : DataFrame) (lookup_dir : Dir catalog_doc)
         (output_file : string) (w : World),
    load_inventory c sample_repr present = Ok inventory_df ->
    rows inventory_df = [] ->
    run c sample_repr kind [("readme.txt", CsvInvalid)] lookup_dir output_file w =
    run c sample_repr kind present lookup_dir output_file w.
Proof.
  apply (no_sources_inventory sample_repr [("readme.txt", CsvInvalid)]).
  reflexivity.
Defined.

(** ** The advisory names of the inventory *)

(** One slot whose card is not in the sample catalog, with the name and the
    set name the collector wrote down. *)
Definition advisory_inventory_dir : Dir csv_source :=
  [("inventory.csv",
    CsvTable {| columns := ["card_name"; "set_name"; "set_id"; "card_number";
                            "binder_name"; "page_number"; "slot_number"];
                rows := [[("card_name", CStr "Pikachu");
                          ("set_name", CStr "Jungle");
                          ("set_id", CStr "base2"); ("card_number", CInt 60);
                          ("binder_name", CStr "B1"); ("page_number", CInt 1);
                          ("slot_number", CInt 1)]] |})].

(** C3, at the failing input.  The slot has no match in the catalog and its
    inventory record carries the name Pikachu and the set name Jungle, yet
    the row written holds NOT_FOUND for both, beside the market value 0.0:
    [left_cols] drops the two advisory columns ahead of the merge, so no
    [card_name_inv] or [set_name_inv] column ever reaches [combine_first]. *)
Theorem advisory_names_dropped :
  fs (snd (Robust.update_portfolio sample_repr stable_kind
             advisory_inventory_dir sample_lookup_dir "card_portfolio.csv"
             empty_world)) "card_portfolio.csv" =
  Some {| header := Robust.final_cols;
          data := [[CStr "B1-1-1"; CStr "B1"; CInt 1; CInt 1;
                    CStr "NOT_FOUND"; CInt 60; CStr "base2";
                    CStr "NOT_FOUND"; CFloat 0]] |} /\
  (exists df, In df (sources advisory_inventory_dir) /\
              map (get "card_name") (rows df) = [CStr "Pikachu"] /\
              map (get "set_name") (rows df) = [CStr "Jungle"]).
Proof.
  split; [vm_compute; reflexivity|].
  eexists. split; [left; reflexivity|]. split; reflexivity.
Qed.

(** ** The market value of a document without holofoil prices *)

Definition normal_only_records : list json :=
  [card "base1-58" "Pikachu" "58" "base1" "Base" [normal (7 # 2)]].

(** C4, at the failing input.  A document none of whose cards has a holofoil
    price: the card's normal market price is 3.5 and the market value
    computed is 0.0, since the default taken for the absent holofoil column
    is a column of 0.0, which [fillna] leaves as it is.  The nested copy
    raises on the same document.  Beside a card that has a holofoil price
    the same card is valued at 3.5. *)
Theorem normal_price_lost :
  Robust.lookup_frame normal_only_records =
    Ok {| columns := required_cols;
          rows := [[("card_id", CStr "base1-58"); ("card_name", CStr "Pikachu");
                    ("card_number", CStr "58"); ("set_id", CStr "base1");
                    ("set_name", CStr "Base");
                    ("card_market_value", CFloat 0)]] |} /\
  (df <- pd.json_normalize normal_only_records ;;
   pd.getitem df normal_market) = Ok [CFloat (7 # 2)] /\
  Legacy.lookup_frame normal_only_records =
    Raise (KeyError holofoil_market) /\
  map (get "card_market_value") (rows sample_lookup_df) =
    [CFloat (25 # 2); CFloat (7 # 2)].
Proof.
  repeat split; vm_compute; reflexivity.
Qed.

(** * Further properties of the scripts *)

(** ** Series computed row by row *)

(** The series [s] holds, for each row of [df], the value [f] takes there. *)
Definition elementwise (f : Row -> cell) (df : DataFrame) (s : Series) : Prop :=
  s = map f (rows df).

Definition fill (a v : cell) : cell := if is_na a then v else a.


Lemma align_map {A B C : Type} (d : C) (f : A -> B) (g : A -> C) (xs : list A) :
  align d (map f xs) (map g xs) = map (fun x => (f x, g x)) xs.
Proof.
  induction xs as [|x xs IH]; simpl; [reflexivity|]. rewrite IH. reflexivity.
Qed.

Lemma align_self {A C : Type} (d : C) (g : A -> C) (xs : list A) :
  align d xs (map g xs) = map (fun x => (x, g x)) xs.
Proof.
  induction xs as [|x xs IH]; simpl; [reflexivity|]. rewrite IH. reflexivity.
Qed.


Lemma elementwise_s (df : DataFrame) (col : string) (default : cell) :
  elementwise (fun r => if mem col (columns df) then get col r else default)
              df (Robust.s df col default).
Proof.
  unfold elementwise, Robust.s, pd.Series_const.
  destruct (mem col (columns df)); reflexivity.
Qed.

Lemma elementwise_fillna (f : Row -> cell) (df : DataFrame) (s : Series) (v : cell) :
  elementwise f df s -> elementwise (fun r => fill (f r) v) df (pd.fillna s v).
Proof.
  unfold elementwise, pd.fillna. intros ->. apply map_map.
Qed.

Lemma elementwise_combine_first (f g : Row -> cell) (df : DataFrame)
    (s t : Series) :
  elementwise f df s -> elementwise g df t ->
  elementwise (fun r => fill (f r) (g r)) df (pd.combine_first s t).
Proof.
  unfold elementwise, pd.combine_first, pd.fillna_series. intros -> ->.
  rewrite align_map, map_map. reflexivity.
Qed.




(** Assigning a series computed row by row extends every row by its own
    value. *)
Lemma setitem_elementwise (f : Row -> cell) (df : DataFrame) (c : string)
    (s : Series) :
  elementwise f df s ->
  rows (pd.setitem df c s) = map (fun r => (c, f r) :: r) (rows df).
Proof.
  unfold elementwise. intros ->. simpl. rewrite align_self, map_map. reflexivity.
Qed.

(** ** What the inventory loaders return *)



Lemma get_cons (c k : string) (v : cell) (r : Row) :
  get c ((k, v) :: r) = if String.eqb k c then v else get c r.
Proof. reflexivity. Qed.








(** ** The left merge as a lookup *)








(** ** The rows of the portfolio *)







(** The catalog record an inventory row finds: the first of its identifier,
    which is the only one. *)
Definition catalog_hit (lookup_df : DataFrame) (r : Row) : option Row :=
  find (fun k => cell_eqb (get "card_id" r) (get "card_id" k)) (rows lookup_df).

(** The cell of column [c] in the catalog record of row [r], missing when
    the row finds none. *)
Definition from_catalog (lookup_df : DataFrame) (r : Row) (c : string) : cell :=
  match catalog_hit lookup_df r with
  | Some k => get c k
  | None => NA
  end.

(** The line of the portfolio for the inventory row [r], column by column
    in the order of [final_cols]. *)
Definition portfolio_entry (repr : cell -> string) (lookup_df : DataFrame)
    (r : Row) : list cell :=
  [CStr (pd.str repr (get "binder_name" r) ++ "-" ++
         pd.str repr (get "page_number" r) ++ "-" ++
         pd.str repr (get "slot_number" r));
   get "binder_name" r; get "page_number" r; get "slot_number" r;
   fill (from_catalog lookup_df r "card_name") (CStr "NOT_FOUND");
   get "card_number" r; get "set_id" r;
   fill (from_catalog lookup_df r "set_name") (CStr "NOT_FOUND");
   fill (from_catalog lookup_df r "card_market_value") (CFloat 0)].




(** The frame [pd.read_csv] gives back for a table written by [to_csv], cell
    for cell as written. *)
Definition read_portfolio (a : Artifact) : DataFrame :=
  {| columns := header a;
     rows := map (fun line => combine (header a) line) (data a) |}.

Lemma combine_map {A B : Type} (f : A -> B) (l : list A) :
  combine l (map f l) = map (fun x => (x, f x)) l.
Proof.
  induction l as [|x l IH]; simpl; [reflexivity|]. rewrite IH. reflexivity.
Qed.

Lemma read_to_csv (df : DataFrame) :
  rows (read_portfolio (pd.to_csv df)) =
  map (fun r => map (fun c => (c, get c r)) (columns df)) (rows df).
Proof.
  unfold read_portfolio, pd.to_csv. cbn [rows header data].
  rewrite map_map. apply map_ext. intros r. apply combine_map.
Qed.



(** ** Cells that are never missing *)

Definition present (c : string) (r : Row) : Prop := is_na (get c r) = false.

Lemma in_align_fst {A B : Type} (d : B) (xs : list A) (ys : list B)
    (p : A * B) :
  In p (align d xs ys) -> In (fst p) xs.
Proof.
  revert ys. induction xs as [|x xs IH]; simpl; intros ys H; [contradiction|].
  destruct H as [<-|H]; [left; reflexivity | right; eapply IH, H].
Qed.

Lemma present_setitem_fillna (f : Row -> cell) (df : DataFrame) (c : string)
    (s : Series) (v : cell) :
  is_na v = false -> elementwise f df s ->
  Forall (present c) (rows (pd.setitem df c (pd.fillna s v))).
Proof.
  intros Hv Hs.
  rewrite (setitem_elementwise (fun r => fill (f r) v))
    by (apply elementwise_fillna, Hs).
  apply Forall_map, Forall_forall. intros r _. unfold present.
  rewrite get_cons, String.eqb_refl. unfold fill.
  destruct (is_na (f r)) eqn:E; assumption.
Qed.

Lemma present_setitem_other (df : DataFrame) (c c' : string) (s : Series) :
  String.eqb c' c = false ->
  Forall (present c) (rows df) ->
  Forall (present c) (rows (pd.setitem df c' s)).
Proof.
  intros N H. cbn [rows pd.setitem]. apply Forall_map, Forall_forall.
  intros rv Hrv. apply in_align_fst in Hrv.
  rewrite Forall_forall in H. unfold present. rewrite get_cons, N.
  apply (H _ Hrv).
Qed.

Lemma present_select (df out : DataFrame) (cols : list string) (c : string) :
  pd.select df cols = Ok out -> mem c cols = true ->
  Forall (present c) (rows df) -> Forall (present c) (rows out).
Proof.
  intros H Hc Hp. apply select_inv in H. destruct H as [_ ->]. cbn [rows].
  apply Forall_map. eapply Forall_impl; [|exact Hp].
  intros r Hr. unfold present. rewrite get_restrict by exact Hc. exact Hr.
Qed.

Lemma elementwise_s_combined (df : DataFrame) (a b : string) :
  exists f, elementwise f df
              (pd.combine_first (Robust.s df a NA) (Robust.s df b NA)).
Proof.
  eexists. apply elementwise_combine_first; apply elementwise_s.
Qed.

(** Whatever the inventory and the catalog, no row of a portfolio the primary
    copy builds lacks a name, a set name or a market value. *)
Lemma Robust_portfolio_filled (repr : cell -> string)
    (inventory_df lookup_df final : DataFrame) :
  Robust.portfolio repr inventory_df lookup_df = Ok final ->
  Forall (fun r => present "card_name" r /\ present "set_name" r /\
                   present "card_market_value" r) (rows final).
Proof.
  unfold Robust.portfolio. intros H.
  bind_inv H. bind_inv H. bind_inv H. cbv zeta in H.
  rename a1 into merged.
  set (m1 := pd.setitem merged "card_name" _) in H.
  set (m2 := pd.setitem m1 "set_name" _) in H.
  set (m3 := pd.setitem m2 "card_market_value" _) in H.
  bind_inv H. bind_inv H. bind_inv H.
  set (m4 := pd.setitem m3 "index" _) in H.
  assert (P1 : Forall (present "card_name") (rows m1)).
  { destruct (elementwise_s_combined merged "card_name" "card_name_inv")
      as [f Hf]. eapply present_setitem_fillna; [reflexivity | exact Hf]. }
  assert (P2 : Forall (present "set_name") (rows m2)).
  { destruct (elementwise_s_combined m1 "set_name" "set_name_inv") as [f Hf].
    eapply present_setitem_fillna; [reflexivity | exact Hf]. }
  assert (P3 : Forall (present "card_market_value") (rows m3)).
  { eapply present_setitem_fillna; [reflexivity | apply elementwise_s]. }
  assert (Q1 : Forall (present "card_name") (rows m4)).
  { repeat (apply present_setitem_other; [reflexivity|]). exact P1. }
  assert (Q2 : Forall (present "set_name") (rows m4)).
  { repeat (apply present_setitem_other; [reflexivity|]). exact P2. }
  assert (Q3 : Forall (present "card_market_value") (rows m4)).
  { apply present_setitem_other; [reflexivity|]. exact P3. }
  pose proof (present_select _ _ _ "card_name" H eq_refl Q1) as F1.
  pose proof (present_select _ _ _ "set_name" H eq_refl Q2) as F2.
  pose proof (present_select _ _ _ "card_market_value" H eq_refl Q3) as F3.
  rewrite Forall_forall in *. intros r Hr. auto.
Qed.

(** X4: default fill.  Whenever the primary copy returns normally, every line
    of the portfolio at the destination has a name, a set name and a market
    value: none of the three is missing, whatever the inventory and the
    catalog hold. *)
Theorem portfolio_names_and_value_present :
  forall (repr : cell -> string) (kind : SortKind)
         (inventory_dir : Dir csv_source) (lookup_dir : Dir catalog_doc)
         (output_file : string) (w : World) (artifact : Artifact),
    fst (Robust.update_portfolio repr kind inventory_dir lookup_dir
           output_file w) = Ok tt ->
    fs (snd (Robust.update_portfolio repr kind inventory_dir lookup_dir
               output_file w)) output_file = Some artifact ->
    Forall (fun r => present "card_name" r /\ present "set_name" r /\
                     present "card_market_value" r)
           (rows (read_portfolio artifact)).
Proof.
  intros repr kind inventory_dir lookup_dir output_file w artifact.
  unfold Robust.update_portfolio.
  destruct (Robust._load_lookup_data kind lookup_dir) as [lookup_df|e];
    [|discriminate].
  destruct (Robust._load_inventory_data repr inventory_dir)
    as [inventory_df|e]; [|discriminate].
  destruct (pd.empty inventory_df).
  - intros _. cbn [snd fs write_file write_stderr].
    rewrite String.eqb_refl. intros [= <-]. constructor.
  - destruct (Robust.portfolio repr inventory_df lookup_df) as [final|e] eqn:P;
      [|discriminate].
    intros _. cbn [snd fs print write_file]. rewrite String.eqb_refl.
    intros [= <-]. rewrite read_to_csv.
    rewrite (Robust_portfolio_columns _ _ _ _ P).
    apply Forall_map.
    eapply Forall_impl; [|apply (Robust_portfolio_filled _ _ _ _ P)].
    intros r (H1 & H2 & H3). unfold present in *.
    rewrite !get_restrict by reflexivity. auto.
Qed.

Lemma portfolio_names_and_value_present_witness :
  Forall (fun r => present "card_name" r /\ present "set_name" r /\
                   present "card_market_value" r)
         (rows (read_portfolio
                  {| header := Robust.final_cols;
                     data := map (portfolio_entry sample_repr sample_lookup_df)
                                 (rows sample_inventory_df) |})).
Proof.
  apply (portfolio_names_and_value_present sample_repr stable_kind
           sample_inventory_dir sample_lookup_dir "card_portfolio.csv"
           empty_world); vm_compute; reflexivity.
Defined.

(** ** What a run does to the world *)

(** The three ways a run of either copy ends: an exception with the world
    untouched, the empty portfolio and a line on the error stream, or a
    portfolio and a line on the output stream. *)
Lemma run_cases (c : copy) (repr : cell -> string) (kind : SortKind)
    (inventory_dir : Dir csv_source) (lookup_dir : Dir catalog_doc)
    (output_file : string) :
  (exists e, forall w,
     run c repr kind inventory_dir lookup_dir output_file w = (Raise e, w)) \/
  (forall w,
     run c repr kind inventory_dir lookup_dir output_file w =
     (Ok tt, write_file output_file (pd.to_csv (pd.DataFrame_columns empty_cols))
               (write_stderr empty_message w))) \/
  (exists final msg, forall w,
     run c repr kind inventory_dir lookup_dir output_file w =
     (Ok tt, print msg (write_file output_file (pd.to_csv final) w))).
Proof.
  destruct c; simpl;
    [unfold Robust.update_portfolio | unfold Legacy.update_portfolio].
  - destruct (Robust._load_lookup_data kind lookup_dir) as [lookup_df|e];
      [|left; eauto].
    destruct (Robust._load_inventory_data repr inventory_dir)
      as [inventory_df|e]; [|left; eauto].
    destruct (pd.empty inventory_df); [right; left; reflexivity|].
    destruct (Robust.portfolio repr inventory_df lookup_df) as [final|e];
      [right; right; eauto | left; eauto].
  - destruct (Legacy._load_lookup_data kind lookup_dir) as [lookup_df|e];
      [|left; eauto].
    destruct (Legacy._load_inventory_data repr inventory_dir)
      as [inventory_df|e]; [|left; eauto].
    destruct (pd.empty inventory_df); [right; left; reflexivity|].
    destruct (Legacy.portfolio repr inventory_df lookup_df) as [final|e];
      [right; right; eauto | left; eauto].
Qed.


(** ** Which catalog files count *)

(** A file of the catalog directory the primary loader takes records from:
    its name ends in [.json] and its content parses to a non-empty list,
    directly or under [data]. *)
Definition contributes (f : string * catalog_doc) : bool :=
  endswith (fst f) ".json" &&
  match snd f with
  | Parsed data =>
      match Robust.records_of data with
      | JArr (_ :: _) => true
      | _ => false
      end
  | _ => false
  end.

Lemma lookup_frames_contributes (lookup_dir : Dir catalog_doc) :
  Robust.lookup_frames lookup_dir =
  Robust.lookup_frames (filter contributes lookup_dir).
Proof.
  induction lookup_dir as [|[file doc] rest IH]; [reflexivity|].
  unfold contributes at 1. cbn [filter fst snd Robust.lookup_frames].
  destruct (endswith file ".json") eqn:E; cbn [negb andb]; [|exact IH].
  destruct doc as [| | |content]; try exact IH.
  destruct (Robust.records_of content) as [| | | | |[|r records]|] eqn:R;
    try exact IH.
  cbn [Robust.lookup_frames]. rewrite E, R, IH. reflexivity.
Qed.

(** X6: the primary loader reads only the files whose name ends in [.json]
    and whose content is a non-empty list of records, directly or under
    [data]; every other file, whatever it holds, changes nothing, and with
    no such file the catalog returned is the empty frame of six columns. *)
Theorem only_record_lists_contribute :
  forall (kind : SortKind) (lookup_dir : Dir catalog_doc),
    Robust._load_lookup_data kind lookup_dir =
    Robust._load_lookup_data kind (filter contributes lookup_dir) /\
    (filter contributes lookup_dir = [] ->
     Robust._load_lookup_data kind lookup_dir =
     Ok (pd.DataFrame_columns required_cols)).
Proof.
  intros kind lookup_dir.
  assert (E : Robust._load_lookup_data kind lookup_dir =
              Robust._load_lookup_data kind (filter contributes lookup_dir)).
  { unfold Robust._load_lookup_data.
    rewrite <- lookup_frames_contributes. reflexivity. }
  split; [exact E|]. intros H. rewrite E, H. reflexivity.
Qed.

(** X7: the nested loader passes over nothing.  One [.json] file that cannot
    be read, is blank or does not parse makes it raise, and the run with it,
    the world left as it was. *)
Theorem nested_loader_raises_on_invalid :
  forall (kind : SortKind) (lookup_dir : Dir catalog_doc) (file : string)
         (doc : catalog_doc),
    In (file, doc) lookup_dir ->
    endswith file ".json" = true ->
    doc = Unreadable \/ doc = Blank \/ doc = Malformed ->
    exists e,
      Legacy._load_lookup_data kind lookup_dir = Raise e /\
      forall repr inventory_dir output_file w,
        Legacy.update_portfolio repr kind inventory_dir lookup_dir
          output_file w = (Raise e, w).
Proof.
  intros kind lookup_dir file doc Hin Hext Hdoc.
  assert (F : exists e, Legacy.lookup_frames lookup_dir = Raise e).
  { induction lookup_dir as [|[file' doc'] rest IH]; [contradiction|].
    cbn [Legacy.lookup_frames].
    destruct Hin as [[= -> ->]|Hin].
    - rewrite Hext.
      destruct Hdoc as [-> | [-> | ->]]; cbn; eauto.
    - destruct (IH Hin) as [e He].
      destruct (endswith file' ".json"); [|eauto].
      destruct (Legacy.read_data doc') as [records|e1]; [|cbn; eauto].
      cbn [bind].
      destruct (Legacy.lookup_frame records) as [df|e2]; [|cbn; eauto].
      cbn [bind]. rewrite He. cbn. eauto. }
  destruct F as [e He]. exists e.
  assert (L : Legacy._load_lookup_data kind lookup_dir = Raise e).
  { unfold Legacy._load_lookup_data. rewrite He. reflexivity. }
  split; [exact L|].
  intros repr inventory_dir output_file w.
  unfold Legacy.update_portfolio. rewrite L. reflexivity.
Qed.

Lemma nested_loader_raises_on_invalid_witness :
  exists e,
    Legacy._load_lookup_data stable_kind
      (priced_lookup_dir ++ [("broken.json", Malformed)]) = Raise e /\
    forall repr inventory_dir output_file w,
      Legacy.update_portfolio repr stable_kind inventory_dir
        (priced_lookup_dir ++ [("broken.json", Malformed)])
        output_file w = (Raise e, w).
Proof.
  apply (nested_loader_raises_on_invalid stable_kind
           (priced_lookup_dir ++ [("broken.json", Malformed)])
           "broken.json" Malformed).
  - right. left. reflexivity.
  - reflexivity.
  - right. right. reflexivity.
Defined.

(** ** The shape of the catalog *)

Lemma load_lookup_loads (c : copy) (kind : SortKind)
    (lookup_dir : Dir catalog_doc) (df : DataFrame) :
  load_lookup c kind lookup_dir = Ok df ->
  exists frames, loads kind lookup_dir frames df.
Proof.
  destruct c; simpl; intros H.
  - destruct (Robust.lookup_frames lookup_dir) as [frames|e] eqn:F.
    + exists frames. left. auto.
    + unfold Robust._load_lookup_data in H. rewrite F in H. discriminate.
  - destruct (Legacy.lookup_frames lookup_dir) as [frames|e] eqn:F.
    + exists frames. right. auto.
    + unfold Legacy._load_lookup_data in H. rewrite F in H. discriminate.
Qed.

Lemma keyed_numeric (by_ : string) (rs : list Row) (krs : list (Q * Row)) :
  pd.keyed by_ rs = Ok krs ->
  Forall (fun r => exists q, numeric_of (get by_ r) = Some q) rs.
Proof.
  revert krs. induction rs as [|r rs IH]; simpl; intros krs H; [constructor|].
  destruct (numeric_of (get by_ r)) as [q|] eqn:E; [|discriminate].
  bind_inv H. constructor; [eauto | eapply IH, Ha].
Qed.

Lemma deduplicated_numeric (kind : SortKind) (raw df : DataFrame) :
  deduplicated kind raw df ->
  Forall (fun r => exists q, numeric_of (get "card_market_value" r) = Some q)
         (rows df).
Proof.
  intros D.
  assert (R : Forall (fun r => exists q,
                        numeric_of (get "card_market_value" r) = Some q)
                     (rows raw)).
  { destruct D as (sorted & Hs & _). unfold pd.sort_values in Hs.
    destruct (mem _ (columns raw)); [|discriminate].
    bind_inv Hs. eapply keyed_numeric, Ha. }
  rewrite Forall_forall in *. intros r Hr. apply R.
  eapply deduplicated_subset; eassumption.
Qed.

Lemma keep_first_sorted (R : Row -> Row -> Prop) (key : string) (rs : list Row) :
  StronglySorted R rs ->
  forall seen, StronglySorted R (pd.keep_first key seen rs).
Proof.
  induction 1 as [|h rs Hrs IH Hh]; simpl; intros seen; [constructor|].
  destruct (existsb (cell_eqb (get key h)) seen); [apply IH|].
  constructor; [apply IH|].
  rewrite Forall_forall in *. intros r Hr.
  apply keep_first_unseen in Hr. apply Hh. tauto.
Qed.

Lemma sorted_map_snd (l : list (Q * Row)) :
  StronglySorted key_ge l ->
  (forall x, In x l -> fst x = market_value (snd x)) ->
  StronglySorted (fun a b => (market_value b <= market_value a)%Q) (map snd l).
Proof.
  induction 1 as [|h l Hl IH Hh]; simpl; intros E; [constructor|].
  constructor; [apply IH; intros x Hx; apply E; right; exact Hx|].
  apply Forall_map. rewrite Forall_forall in *. intros x Hx.
  specialize (Hh x Hx). unfold key_ge in Hh.
  rewrite <- (E h (or_introl eq_refl)), <- (E x (or_intror Hx)). exact Hh.
Qed.

(** X8: the catalog either loader returns has exactly the six catalog columns
    in their fixed order, and a market value in every row: none is
    missing. *)
Theorem catalog_columns_and_values :
  forall (c : copy) (kind : SortKind) (lookup_dir : Dir catalog_doc)
         (df : DataFrame),
    load_lookup c kind lookup_dir = Ok df ->
    columns df =
      ["card_id"; "card_name"; "card_number"; "set_id"; "set_name";
       "card_market_value"] /\
    Forall (present "card_market_value") (rows df).
Proof.
  intros c kind lookup_dir df H.
  split; [apply (lookup_columns c kind lookup_dir), H|].
  destruct (load_lookup_loads c kind lookup_dir df H) as [frames L].
  destruct (loads_deduplicated _ _ _ _ L) as [[_ ->]|D]; [constructor|].
  eapply Forall_impl; [|apply (deduplicated_numeric _ _ _ D)].
  intros r [q Hq]. unfold present.
  destruct (get "card_market_value" r); try discriminate Hq; reflexivity.
Qed.

Lemma catalog_columns_and_values_witness :
  columns sample_lookup_df =
    ["card_id"; "card_name"; "card_number"; "set_id"; "set_name";
     "card_market_value"] /\
  Forall (present "card_market_value") (rows sample_lookup_df).
Proof.
  apply (catalog_columns_and_values primary stable_kind sample_lookup_dir
           sample_lookup_df).
  reflexivity.
Defined.

(** X9: the catalog either loader returns lists its records by market value,
    largest first. *)
Theorem catalog_sorted_descending :
  forall (c : copy) (kind : SortKind) (lookup_dir : Dir catalog_doc)
         (df : DataFrame),
    load_lookup c kind lookup_dir = Ok df ->
    StronglySorted (fun a b => (market_value b <= market_value a)%Q) (rows df).
Proof.
  intros c kind lookup_dir df H.
  destruct (load_lookup_loads c kind lookup_dir df H) as [frames L].
  destruct (loads_deduplicated _ _ _ _ L) as [[_ ->]|D]; [constructor|].
  apply deduplicated_rows in D. destruct D as [-> _].
  apply keep_first_sorted, sorted_map_snd; [apply sort_desc_sorted|].
  intros x Hx. apply in_decorate_sorted in Hx. destruct Hx as [_ ->].
  reflexivity.
Qed.

Lemma catalog_sorted_descending_witness :
  StronglySorted (fun a b => (market_value b <= market_value a)%Q)
                 (rows sample_lookup_df).
Proof.
  apply (catalog_sorted_descending primary stable_kind sample_lookup_dir
           sample_lookup_df).
  reflexivity.
Defined.

(** ** One document of the catalog *)

Definition is_object (v : json) : bool :=
  match v with
  | JObj _ => true
  | _ => false
  end.

Lemma flatten_records_Ok (records : list json) :
  forallb is_object records = true ->
  exists rs, pd.flatten_records records = Ok rs /\
             List.length rs = List.length records.
Proof.
  induction records as [|v records IH]; simpl; intros H; [eauto|].
  apply andb_true_iff in H. destruct H as [Hv Hrest].
  destruct v; try discriminate Hv. destruct (IH Hrest) as (rs & -> & Hlen).
  cbn. eexists. split; [reflexivity|]. simpl. rewrite Hlen. reflexivity.
Qed.

Lemma json_normalize_Ok (records : list json) :
  forallb is_object records = true ->
  exists df, pd.json_normalize records = Ok df /\
             List.length (rows df) = List.length records.
Proof.
  intros H. destruct (flatten_records_Ok records H) as (rs & E & Hlen).
  unfold pd.json_normalize. rewrite E. cbn [bind].
  eexists. split; [reflexivity|]. cbn [rows]. rewrite length_map. exact Hlen.
Qed.

Lemma mem_ensure_column (df : DataFrame) (c col : string) :
  mem c (columns (Robust.ensure_column df col)) =
  mem c (columns df) || String.eqb c col.
Proof.
  unfold Robust.ensure_column. destruct (mem col (columns df)) eqn:E.
  - destruct (String.eqb c col) eqn:F; [|rewrite orb_false_r; reflexivity].
    apply String.eqb_eq in F. subst col. rewrite E. reflexivity.
  - apply mem_setitem.
Qed.

Lemma mem_ensure_columns (cols : list string) :
  forall (df : DataFrame) (c : string),
    mem c (columns (fold_left Robust.ensure_column cols df)) =
    mem c (columns df) || mem c cols.
Proof.
  induction cols as [|col cols IH]; simpl; intros df c.
  - rewrite orb_false_r. reflexivity.
  - rewrite IH, mem_ensure_column, orb_assoc. reflexivity.
Qed.

Lemma ensure_column_get (df : DataFrame) (c col : string) :
  mem c (columns df) = true ->
  map (get c) (rows (Robust.ensure_column df col)) = map (get c) (rows df).
Proof.
  intros Hc. unfold Robust.ensure_column.
  destruct (mem col (columns df)) eqn:E; [reflexivity|].
  rewrite (setitem_elementwise
             (fun _ => if String.eqb col "card_market_value"
                       then CFloat 0 else NA)) by reflexivity.
  rewrite map_map. apply map_ext. intros r. rewrite get_cons.
  destruct (String.eqb col c) eqn:F; [|reflexivity].
  apply String.eqb_eq in F. subst col. congruence.
Qed.

Lemma ensure_columns_get (cols : list string) :
  forall (df : DataFrame) (c : string),
    mem c (columns df) = true ->
    map (get c) (rows (fold_left Robust.ensure_column cols df)) =
    map (get c) (rows df).
Proof.
  induction cols as [|col cols IH]; simpl; intros df c Hc; [reflexivity|].
  rewrite IH by (rewrite mem_ensure_column, Hc; reflexivity).
  apply ensure_column_get, Hc.
Qed.

Lemma ensure_columns_length (cols : list string) :
  forall df : DataFrame,
    List.length (rows (fold_left Robust.ensure_column cols df)) =
    List.length (rows df).
Proof.
  induction cols as [|col cols IH]; simpl; intros df; [reflexivity|].
  rewrite IH. unfold Robust.ensure_column.
  destruct (mem col (columns df)); [reflexivity | apply setitem_length].
Qed.

(** X10: on a list of objects the primary copy's frame for one document never
    fails for want of a column: whatever keys the records have, it has the
    six catalog columns and one row per record. *)
Theorem lookup_frame_total :
  forall records : list json,
    forallb is_object records = true ->
    exists df,
      Robust.lookup_frame records = Ok df /\
      columns df = required_cols /\
      List.length (rows df) = List.length records.
Proof.
  intros records H.
  destruct (json_normalize_Ok records H) as (df & E & Hlen).
  unfold Robust.lookup_frame. rewrite E. cbn [bind]. cbv zeta.
  rewrite select_Ok.
  - eexists. split; [reflexivity|]. split; [reflexivity|].
    cbn [rows]. rewrite length_map, ensure_columns_length.
    cbn [rows pd.rename]. rewrite length_map, setitem_length. exact Hlen.
  - apply forallb_forall. intros c Hc.
    rewrite mem_ensure_columns. apply orb_true_iff. right.
    apply mem_In, Hc.
Qed.

Lemma lookup_frame_total_witness :
  exists df,
    Robust.lookup_frame [JObj [("id", JStr "x1")]; JObj []] = Ok df /\
    columns df = required_cols /\
    List.length (rows df) = List.length [JObj [("id", JStr "x1")]; JObj []].
Proof.
  apply (lookup_frame_total [JObj [("id", JStr "x1")]; JObj []]).
  reflexivity.
Defined.

Lemma elementwise_get_or (df : DataFrame) (c : string) (v : cell) :
  elementwise (fun r => if mem c (columns df) then get c r else v) df
              (pd.get_or df c (pd.Series_const v df)).
Proof.
  unfold elementwise, pd.get_or, pd.Series_const.
  destruct (mem c (columns df)); reflexivity.
Qed.

(** X11: the market value of the primary copy, record by record.  When some
    record of the document has a holofoil price, a card is valued at its
    holofoil price, else at its normal price, else at 0.0; when none has,
    every card of the document is valued 0.0, whatever its normal price. *)
Theorem market_value_rule :
  forall (records : list json) (df frame : DataFrame),
    pd.json_normalize records = Ok df ->
    Robust.lookup_frame records = Ok frame ->
    (mem holofoil_market (columns df) = true ->
     map (get "card_market_value") (rows frame) =
     map (fun r =>
            fill (fill (get holofoil_market r)
                       (if mem normal_market (columns df)
                        then get normal_market r else CFloat 0))
                 (CFloat 0))
         (rows df)) /\
    (mem holofoil_market (columns df) = false ->
     Forall (fun r => get "card_market_value" r = CFloat 0) (rows frame)).
Proof.
  intros records df frame E H.
  unfold Robust.lookup_frame in H. rewrite E in H. cbn [bind] in H.
  cbv zeta in H. apply select_inv in H. destruct H as [_ ->]. cbn [rows].
  set (rule := fun r : Row =>
         fill (fill (if mem holofoil_market (columns df)
                     then get holofoil_market r else CFloat 0)
                    (if mem normal_market (columns df)
                     then get normal_market r else CFloat 0))
              (CFloat 0)).
  assert (V : map (get "card_market_value")
                (map (fun r => map (fun c => (c, get c r)) required_cols)
                   (rows (fold_left Robust.ensure_column required_cols
                      (pd.rename lookup_renames
                         (pd.setitem df "card_market_value"
                            (pd.fillna
                               (pd.fillna_series
                                  (pd.get_or df holofoil_market
                                     (pd.Series_const (CFloat 0) df))
                                  (pd.get_or df normal_market
                                     (pd.Series_const (CFloat 0) df)))
                               (CFloat 0)))))))
              = map rule (rows df)).
  { rewrite map_map.
    rewrite (map_ext _ (get "card_market_value"))
      by (intros r; apply get_restrict; reflexivity).
    rewrite ensure_columns_get.
    - cbn [rows pd.rename].
      rewrite (setitem_elementwise rule)
        by (apply elementwise_fillna,
              (elementwise_combine_first _ _ df); apply elementwise_get_or).
      rewrite !map_map. apply map_ext. intros r. reflexivity.
    - cbn [columns pd.rename]. apply mem_In, in_map_iff.
      exists "card_market_value". split; [reflexivity|].
      apply mem_In, setitem_mem_same. }
  split; intros Hh.
  - rewrite V. unfold rule. rewrite Hh. reflexivity.
  - apply Forall_forall. intros r Hr.
    apply (in_map (get "card_market_value")) in Hr. rewrite V in Hr.
    apply in_map_iff in Hr. destruct Hr as (r0 & <- & _).
    unfold rule. rewrite Hh. reflexivity.
Qed.

Lemma market_value_rule_witness :
  Forall (fun r => get "card_market_value" r = CFloat 0)
         (rows {| columns := required_cols;
                  rows := [[("card_id", CStr "base1-58");
                            ("card_name", CStr "Pikachu");
                            ("card_number", CStr "58"); ("set_id", CStr "base1");
                            ("set_name", CStr "Base");
                            ("card_market_value", CFloat 0)]] |}).
Proof.
  refine (proj2 (market_value_rule normal_only_records
                   (match pd.json_normalize normal_only_records with
                    | Ok df => df
                    | Raise _ => pd.DataFrame_columns []
                    end) _ _ _) _); vm_compute; reflexivity.
Defined.

(** ** The nested copy on an inventory that has names *)














(** * The report and the pipeline *)

(** ** Labs/Lab_04/pokemon_lab/generate_summary.py *)

(** How a script function ends: it returns, it leaves the process through
    [sys.exit], or an exception leaves it. *)
Inductive outcome : Type :=
| Returned
| Exited (code : Z)
| Raised (e : exn).

Definition newline : string := String "010" "".

(** [print(msg, file=sys.stderr)] *)
Definition eprint (msg : string) (w : World) : World :=
  write_stderr (msg ++ newline) w.

(** A column as the numbers [sum] and [idxmax] work on: a missing cell is
    skipped, a cell that is no number cannot be added or compared. *)
Fixpoint numbers (s : Series) : result (list (option Q)) :=
  match s with
  | [] => Ok []
  | NA :: rest => qs <- numbers rest ;; Ok (None :: qs)
  | c :: rest =>
      match numeric_of c with
      | Some q => qs <- numbers rest ;; Ok (Some q :: qs)
      | None => Raise TypeError
      end
  end.

(** [s.sum()] *)
Definition sum (qs : list (option Q)) : Q :=
  fold_right (fun o acc => match o with Some q => (q + acc)%Q | None => acc end)
             0%Q qs.

(** [s.idxmax()] on the default index: the position of the first largest
    number; a column without numbers has none. *)
Fixpoint idxmax_from (i : nat) (best : option (nat * Q)) (qs : list (option Q))
  : option nat :=
  match qs with
  | [] => option_map fst best
  | None :: rest => idxmax_from (S i) best rest
  | Some q :: rest =>
      match best with
      | Some (j, b) =>
          if Qle_bool q b then idxmax_from (S i) best rest
          else idxmax_from (S i) (Some (i, q)) rest
      | None => idxmax_from (S i) (Some (i, q)) rest
      end
  end.

Definition idxmax (qs : list (option Q)) : result nat :=
  match idxmax_from 0 None qs with
  | Some i => Ok i
  | None => Raise ValueError
  end.

(** [row[label]] on a row of [df] *)
Definition row_item (df : DataFrame) (r : Row) (label : string) : result cell :=
  if mem label (columns df) then Ok (get label r) else Raise (KeyError label).

Section Report.

(** [str(x)] of floats and lists, and the format [:,.2f] of a number. *)
Variable repr : cell -> string.
Variable money : Q -> string.

(** [f"{x:,.2f}"] on a cell *)
Definition format_money (c : cell) : result string :=
  match c with
  | NA => Ok "nan"
  | _ =>
      match numeric_of c with
      | Some q => Ok (money q)
      | None => Raise ValueError
      end
  end.

(** The body of [generate_summary] once the frame is known not to be empty:
    each line is printed before the next is computed, so what was printed
    stays printed when a later line raises. *)
Definition report (df : DataFrame) (w : World) : outcome * World :=
  match (s <- pd.getitem df "card_market_value" ;; numbers s) with
  | Raise e => (Raised e, w)
  | Ok qs =>
      let total_portfolio_value := sum qs in
      match idxmax qs with
      | Raise e => (Raised e, w)
      | Ok most_valuable_idx =>
          match nth_error (rows df) most_valuable_idx with
          | None => (Raised (KeyError "index"), w)
          | Some most_valuable_card =>
              let w := print (newline ++ "===== Portfolio Summary Report =====") w in
              let w := print ("Total Portfolio Value: $" ++
                              money total_portfolio_value) w in
              let w := print (newline ++ "Most Valuable Card:") w in
              match row_item df most_valuable_card "card_name" with
              | Raise e => (Raised e, w)
              | Ok name =>
                  let w := print ("  Name: " ++ pd.str repr name) w in
                  match row_item df most_valuable_card "card_id" with
                  | Raise e => (Raised e, w)
                  | Ok id =>
                      let w := print ("  ID: " ++ pd.str repr id) w in
                      match
                        (v <- row_item df most_valuable_card "card_market_value" ;;
                         format_money v)
                      with
                      | Raise e => (Raised e, w)
                      | Ok value =>
                          let w := print ("  Market Value: $" ++ value) w in
                          (Returned,
                           print ("====================================" ++ newline) w)
                      end
                  end
              end
          end
      end
  end.

(** [generate_summary(portfolio_file)]; a file without a header line is
    refused by [read_csv]. *)
Definition generate_summary (portfolio_file : string) (w : World)
  : outcome * World :=
  match fs w portfolio_file with
  | None =>
      (Exited 1,
       eprint ("Error: Portfolio file '" ++ portfolio_file ++ "' not found.") w)
  | Some artifact =>
      match header artifact with
      | [] => (Raised ValueError, w)
      | _ :: _ =>
          let df := read_portfolio artifact in
          if pd.empty df then
            (Returned,
             print "The portfolio file is empty. No data to summarize." w)
          else report df w
      end
  end.

(** [generate_summary.main()] and [generate_summary.test()] *)
Definition summary_main (w : World) : outcome * World :=
  generate_summary "card_portfolio.csv" w.

Definition summary_test (w : World) : outcome * World :=
  generate_summary "test_card_portfolio.csv" w.

(** ** The entry points of update_portfolio.py and pipeline.py *)

(** The directories of the working directory, each as the loader that reads
    it sees its files. *)
Record Disk : Type := mkDisk {
  inventory_at : string -> Dir csv_source;
  lookup_at : string -> Dir catalog_doc
}.

(** [update_portfolio.main()] and [update_portfolio.test()], of either copy *)
Definition main (c : copy) (kind : SortKind) (disk : Disk) (w : World)
  : result unit * World :=
  run c repr kind (inventory_at disk "./card_inventory/")
      (lookup_at disk "./card_set_lookup/") "card_portfolio.csv" w.

Definition test (c : copy) (kind : SortKind) (disk : Disk) (w : World)
  : result unit * World :=
  run c repr kind (inventory_at disk "./card_inventory_test/")
      (lookup_at disk "./card_set_lookup_test/") "test_card_portfolio.csv" w.

(** [run_production_pipeline()]: [pipeline.py] imports the primary copy. *)
Definition run_production_pipeline (kind : SortKind) (disk : Disk) (w : World)
  : outcome * World :=
  let w := eprint "--- Starting Production Pipeline ---" w in
  let w := eprint ">>> Step 1: Updating portfolio data..." w in
  match main primary kind disk w with
  | (Raise e, w) => (Raised e, w)
  | (Ok _, w) =>
      let w := eprint ">>> Step 2: Generating summary report..." w in
      match summary_main w with
      | (Returned, w) =>
          (Returned,
           eprint "--- Production Pipeline Completed Successfully ---" w)
      | stopped => stopped
      end
  end.

End Report.

(** ** Numbers in the portfolio *)









(** ** What the report does *)

Lemma report_fs (repr : cell -> string) (money : Q -> string) (df : DataFrame)
    (w : World) :
  fs (snd (report repr money df w)) = fs w.
Proof.
  unfold report.
  destruct (s <- pd.getitem df "card_market_value" ;; numbers s) as [qs|e];
    [|reflexivity].
  destruct (idxmax qs) as [i|e]; [|reflexivity].
  destruct (nth_error (rows df) i) as [r|]; [|reflexivity].
  cbv zeta.
  destruct (row_item df r "card_name") as [name|e]; [|reflexivity].
  destruct (row_item df r "card_id") as [id|e]; [|reflexivity].
  destruct (v <- row_item df r "card_market_value" ;; format_money money v)
    as [value|e]; reflexivity.
Qed.



(** X14: the report only reads.  Whatever the file holds and however the
    function ends, [generate_summary] leaves every file as it was; without
    the file it prints one line to the error stream, nothing to the output
    stream, and exits with status 1. *)
Theorem summary_reads_only :
  forall (repr : cell -> string) (money : Q -> string)
         (portfolio_file : string) (w : World),
    fs (snd (generate_summary repr money portfolio_file w)) = fs w /\
    (fs w portfolio_file = None ->
     fst (generate_summary repr money portfolio_file w) = Exited 1 /\
     stdout (snd (generate_summary repr money portfolio_file w)) = stdout w /\
     stderr (snd (generate_summary repr money portfolio_file w)) =
       stderr w ++
       [(("Error: Portfolio file '" ++ portfolio_file ++ "' not found.")
           ++ newline)%string]).
Proof.
  intros repr money portfolio_file w. unfold generate_summary.
  destruct (fs w portfolio_file) as [artifact|] eqn:F.
  - split; [|discriminate].
    destruct (header artifact); [reflexivity|].
    cbv zeta. destruct (pd.empty (read_portfolio artifact));
      [reflexivity | apply report_fs].
  - split; [reflexivity|]. intros _.
    split; [reflexivity|]. split; reflexivity.
Qed.

(** X15: after a run of either copy on an empty inventory, the report on the
    file just written finds the header line and no row: it prints that the
    portfolio is empty and returns normally. *)
Theorem empty_portfolio_reported :
  forall (c : copy) (repr : cell -> string) (money : Q -> string)
         (kind : SortKind) (inventory_dir : Dir csv_source)
         (lookup_dir : Dir catalog_doc) (output_file : string) (w : World)
         (lookup_df inventory_df : DataFrame),
    load_lookup c kind lookup_dir = Ok lookup_df ->
    load_inventory c repr inventory_dir = Ok inventory_df ->
    pd.empty inventory_df = true ->
    let w1 := snd (run c repr kind inventory_dir lookup_dir output_file w) in
    generate_summary repr money output_file w1 =
    (Returned, print "The portfolio file is empty. No data to summarize." w1).
Proof.
  intros c repr money kind inventory_dir lookup_dir output_file w lookup_df
         inventory_df Hl Hi He w1.
  assert (E : w1 = write_file output_file
                     (pd.to_csv (pd.DataFrame_columns empty_cols))
                     (write_stderr empty_message w)).
  { unfold w1. destruct c; simpl in *;
      [unfold Robust.update_portfolio | unfold Legacy.update_portfolio];
      rewrite Hl, Hi, He; reflexivity. }
  rewrite E. unfold generate_summary. cbn [fs write_file].
  rewrite String.eqb_refl. reflexivity.
Qed.

Lemma empty_portfolio_reported_witness :
  generate_summary sample_repr (fun _ => "0.00") "card_portfolio.csv"
    (snd (run primary sample_repr stable_kind [] one_card_dir
            "card_portfolio.csv" empty_world)) =
  (Returned,
   print "The portfolio file is empty. No data to summarize."
     (snd (run primary sample_repr stable_kind [] one_card_dir
             "card_portfolio.csv" empty_world))).
Proof.
  apply (empty_portfolio_reported primary sample_repr (fun _ => "0.00")
           stable_kind [] one_card_dir "card_portfolio.csv" empty_world
           (match Robust._load_lookup_data stable_kind one_card_dir with
            | Ok df => df
            | Raise _ => pd.DataFrame_columns []
            end)
           (pd.DataFrame_columns [])); reflexivity.
Defined.






(** ** The report on a complete portfolio *)








(** ** The production pipeline *)




(** X19: the production pipeline on an empty inventory runs to its end: the
    empty portfolio is written, the report says that it is empty, and the
    error stream holds the five lines in order, the warning of the empty
    inventory between those of step 1 and step 2. *)
Theorem pipeline_on_empty_inventory :
  forall (repr : cell -> string) (money : Q -> string) (kind : SortKind)
         (disk : Disk) (w : World) (lookup_df inventory_df : DataFrame),
    Robust._load_lookup_data kind (lookup_at disk "./card_set_lookup/")
      = Ok lookup_df ->
    Robust._load_inventory_data repr (inventory_at disk "./card_inventory/")
      = Ok inventory_df ->
    pd.empty inventory_df = true ->
    fst (run_production_pipeline repr money kind disk w) = Returned /\
    fs (snd (run_production_pipeline repr money kind disk w))
       "card_portfolio.csv" = Some {| header := empty_cols; data := [] |} /\
    stdout (snd (run_production_pipeline repr money kind disk w)) =
      stdout w ++ ["The portfolio file is empty. No data to summarize."] /\
    stderr (snd (run_production_pipeline repr money kind disk w)) =
      stderr w ++
      [("--- Starting Production Pipeline ---" ++ newline)%string;
       (">>> Step 1: Updating portfolio data..." ++ newline)%string;
       empty_message;
       (">>> Step 2: Generating summary report..." ++ newline)%string;
       ("--- Production Pipeline Completed Successfully ---" ++ newline)%string].
Proof.
  intros repr money kind disk w lookup_df inventory_df Hl Hi He.
  unfold run_production_pipeline, main. cbv zeta. cbn [run].
  unfold Robust.update_portfolio. rewrite Hl, Hi, He.
  unfold summary_main, generate_summary.
  cbn [fs eprint write_file write_stderr].
  change (String.eqb "card_portfolio.csv" "card_portfolio.csv") with true.
  cbv iota. cbn [header pd.to_csv pd.DataFrame_columns columns empty_cols].
  cbv zeta.
  change (pd.empty (read_portfolio _)) with true. cbv iota.
  unfold eprint, print, write_file, write_stderr.
  cbn [fst snd fs stdout stderr].
  change (String.eqb "card_portfolio.csv" "card_portfolio.csv") with true.
  cbv iota.
  repeat split; rewrite <- ?app_assoc; reflexivity.
Qed.

Lemma pipeline_on_empty_inventory_witness :
  fst (run_production_pipeline sample_repr (fun _ => "0.00") stable_kind
         {| inventory_at := fun _ => []; lookup_at := fun _ => [] |}
         empty_world) = Returned /\
  fs (snd (run_production_pipeline sample_repr (fun _ => "0.00") stable_kind
             {| inventory_at := fun _ => []; lookup_at := fun _ => [] |}
             empty_world))
     "card_portfolio.csv" = Some {| header := empty_cols; data := [] |} /\
  stdout (snd (run_production_pipeline sample_repr (fun _ => "0.00")
                 stable_kind
                 {| inventory_at := fun _ => []; lookup_at := fun _ => [] |}
                 empty_world)) =
    stdout empty_world ++ ["The portfolio file is empty. No data to summarize."] /\
  stderr (snd (run_production_pipeline sample_repr (fun _ => "0.00")
                 stable_kind
                 {| inventory_at := fun _ => []; lookup_at := fun _ => [] |}
                 empty_world)) =
    stderr empty_world ++
    [("--- Starting Production Pipeline ---" ++ newline)%string;
     (">>> Step 1: Updating portfolio data..." ++ newline)%string;
     empty_message;
     (">>> Step 2: Generating summary report..." ++ newline)%string;
     ("--- Production Pipeline Completed Successfully ---" ++ newline)%string].
Proof.
  apply (pipeline_on_empty_inventory sample_repr (fun _ => "0.00") stable_kind
           {| inventory_at := fun _ => []; lookup_at := fun _ => [] |}
           empty_world (pd.DataFrame_columns required_cols)
           (pd.DataFrame_columns [])); reflexivity.
Defined.

(** X20: the two modes keep to their own files.  [test()] of either copy
    leaves the production portfolio as it was, and [main()] leaves the test
    portfolio as it was, whatever the directories hold. *)
Theorem modes_keep_apart :
  forall (c : copy) (repr : cell -> string) (kind : SortKind) (disk : Disk)
         (w : World),
    fs (snd (test repr c kind disk w)) "card_portfolio.csv"
      = fs w "card_portfolio.csv" /\
    fs (snd (main repr c kind disk w)) "test_card_portfolio.csv"
      = fs w "test_card_portfolio.csv".
Proof.
  intros c repr kind disk w. unfold test, main. split.
  - destruct (run_cases c repr kind
                (inventory_at disk "./card_inventory_test/")
                (lookup_at disk "./card_set_lookup_test/")
                "test_card_portfolio.csv")
      as [(e & H)|[H|(final & msg & H)]]; rewrite H; reflexivity.
  - destruct (run_cases c repr kind
                (inventory_at disk "./card_inventory/")
                (lookup_at disk "./card_set_lookup/")
                "card_portfolio.csv")
      as [(e & H)|[H|(final & msg & H)]]; rewrite H; reflexivity.
Qed.
